(** * RedIoT: the sensor node (Node1) and the actuator node (Node2)

    A shallow embedding of the two ESP32 sketches
    [RedIoT_21sep/Node1_21sep/Node1_21sep.ino] and
    [RedIoT_21sep/Node2_21sep/Node2_21sep.ino], and the properties of the
    duty cycle, the message codec and the colour decision proved on it.

    Conventions of the embedding.
    - The global variables of a sketch are the fields of its [state]
      record; a function of the sketch is a function on that record.
    - Every call into the hardware or into a service (WiFi, SNTP, the mesh,
      the DHT sensor, the LED pins, the sleep controller, the task) appends
      an [Action] to the [trace] field, in program order.
    - What the environment answers (the local time, the sensor values, the
      number of polls until the WiFi link is up) is an argument of the
      function that asks for it.
    - [Serial] output changes no variable and drives no device; it is left
      out of the trace.
    - [esp_deep_sleep_start] does not return: the state it leaves has
      [asleep = true], and no statement follows it in either sketch. *)

From Stdlib Require Import ZArith QArith Qpower List String Bool Lia.
From Stdlib Require Import Floats.SpecFloat.
Import ListNotations.

Local Open Scope Z_scope.

(** ** IEEE 754 values of the C++ types [float] and [double] *)

Module IEEE.

(** [float] is binary32, [double] is binary64; both are represented by
    the Standard Library's [spec_float], with the format given by the
    precision and the exponent bound of each operation. *)
Definition float := spec_float.
Definition double := spec_float.

Definition prec32 : Z := 24.
Definition emax32 : Z := 128.
Definition prec64 : Z := 53.
Definition emax64 : Z := 1024.

Definition valid_float (x : float) : bool := valid_binary prec32 emax32 x.
Definition valid_double (x : double) : bool := valid_binary prec64 emax64 x.

(** Integer to floating point ([int] to [float], [int] to [double]). *)
Definition float_of_int (n : Z) : float :=
  binary_normalize prec32 emax32 n 0 false.
Definition double_of_int (n : Z) : double :=
  binary_normalize prec64 emax64 n 0 false.

(** The implicit conversions between the two formats: narrowing rounds
    to nearest even, widening is exact. *)
Definition double_to_float (d : double) : float :=
  match d with
  | S754_finite s m e => binary_round prec32 emax32 s m e
  | _ => d
  end.

Definition float_to_double (f : float) : double :=
  match f with
  | S754_finite s m e => binary_round prec64 emax64 s m e
  | _ => f
  end.

(** Floating point to integer: truncation toward zero.  C++ leaves the
    conversion of a NaN or an infinity undefined; 0 stands for it. *)
Definition double_to_int (d : double) : Z :=
  match d with
  | S754_finite s m e =>
      cond_Zopp s (if 0 <=? e then Zpos m * 2 ^ e else Zpos m / 2 ^ (- e))
  | _ => 0
  end.

(** The products of two doubles and the correctly rounded quotient of
    two integers (the value of a decimal literal such as [5.1]). *)
Definition double_mul (x y : double) : double := SFmul prec64 emax64 x y.
Definition double_of_ratio (n d : Z) : double :=
  SFdiv prec64 emax64 (double_of_int n) (double_of_int d).

(** [x > y] on floats: false as soon as one side is a NaN. *)
Definition float_gt (x y : float) : bool := SFltb y x.

(** The rational number a finite value stands for. *)
Definition SF2Q (x : spec_float) : Q :=
  match x with
  | S754_finite s m e => (inject_Z (cond_Zopp s (Zpos m)) * 2 ^ e)%Q
  | _ => 0%Q
  end.

(** [above q x]: the value [x] is strictly greater than the rational [q]
    in the extended reals; nothing is below a NaN. *)
Definition above (q : Q) (x : spec_float) : Prop :=
  match x with
  | S754_nan => False
  | S754_infinity s => s = false
  | S754_zero _ => (q < 0)%Q
  | S754_finite _ _ _ => (q < SF2Q x)%Q
  end.

End IEEE.

Import IEEE.

(** ** The JSON values of the messages *)

Module JSON.

(** Modelled from the spec: the value of a [JSONVar] of Arduino_JSON, a
    library of the build that is no file of the repository.  The spec has
    a message be a structured text object whose values are textual or
    numeric as typed: a member is a number ([Int] when it was assigned
    from an [int], [Double] when it was assigned from a [float] or a
    [double]) or a text ([Str]); the other constructors are the values a
    received text may also hold. *)
#[warnings="-register-all"]
Inductive JSONVar : Type :=
| Undefined
| Null
| Boolean (b : bool)
| Int (i : Z)
| Double (d : double)
| Str (s : string)
| Array (items : list JSONVar)
| Object (members : list (string * JSONVar)).

(** Modelled from the spec: the wire text ([String]) of a message.  The
    spec has the text be an object with exactly the fields written into
    it: a text is represented by the value it is the text of, and
    [Undefined] represents every text that is not JSON. *)
Definition Text : Type := JSONVar.

(** Modelled from the spec: [JSON.stringify], the text of a value. *)
Definition stringify (v : JSONVar) : Text := v.

(** Modelled from the spec: [JSON.parse], the value of a text; it has a
    result for every text. *)
Definition parse (t : Text) : JSONVar := t.

Fixpoint lookup (key : string) (ms : list (string * JSONVar)) : option JSONVar :=
  match ms with
  | [] => None
  | (k, v) :: ms' => if String.eqb k key then Some v else lookup key ms'
  end.

Fixpoint assign (key : string) (v : JSONVar) (ms : list (string * JSONVar))
  : list (string * JSONVar) :=
  match ms with
  | [] => [(key, v)]
  | (k, w) :: ms' =>
      if String.eqb k key then (k, v) :: ms' else (k, w) :: assign key v ms'
  end.

(** Modelled from the spec: [obj[key] = v], which gives the object the
    member [key] with the value [v]; a variable that is no object yet
    becomes one. *)
Definition set (key : string) (v : JSONVar) (obj : JSONVar) : JSONVar :=
  match obj with
  | Object ms => Object (assign key v ms)
  | _ => Object [(key, v)]
  end.

(** Modelled from the spec: [obj[key]] read on a parsed text
    ([JSONVar::operator[]]).  The spec has decoding extract each named
    field on key presence alone: the member when the text is an object
    that has the key, [Null] otherwise. *)
Definition get (key : string) (obj : JSONVar) : JSONVar :=
  match obj with
  | Object ms => match lookup key ms with Some v => v | None => Null end
  | _ => Null
  end.

(** Modelled from the spec: the conversion of a member to [int]
    ([JSONVar::operator int]).  The spec has an absent key yield the zero
    value of the requested type and malformed input yield default fields
    without an error: a number converts as C++ converts it, anything
    else to 0. *)
Definition to_int (v : JSONVar) : Z :=
  match v with
  | Int i => i
  | Double d => double_to_int d
  | _ => 0
  end.

(** Modelled from the spec: the conversion of a member to [double]
    ([JSONVar::operator double]); a number converts as C++ converts it,
    anything else to 0.0, the zero value the spec gives an absent
    [temp]. *)
Definition to_double (v : JSONVar) : double :=
  match v with
  | Double d => d
  | Int i => double_of_int i
  | _ => S754_zero false
  end.

(** Modelled from the spec: the conversion of a member to [String]
    ([JSONVar::operator String]); a text converts to itself, anything
    else to the empty text. *)
Definition to_String (v : JSONVar) : string :=
  match v with
  | Str s => s
  | _ => EmptyString
  end.

(** [has key t]: the text [t] is an object with a member [key]. *)
Definition has (key : string) (t : Text) : bool :=
  match parse t with
  | Object ms => match lookup key ms with Some _ => true | None => false end
  | _ => false
  end.

End JSON.

Import JSON.

(** ** What both sketches share *)

(** The fields of [struct tm] the sketches read. *)
Record tm : Type := { tm_hour : Z; tm_min : Z; tm_sec : Z }.

(** A broken-down time as [getLocalTime] fills it in. *)
Definition tm_ok (t : tm) : Prop :=
  0 <= tm_hour t < 24 /\ 0 <= tm_min t < 60 /\ 0 <= tm_sec t <= 60.

Definition digit (n : Z) : Ascii.ascii := Ascii.ascii_of_nat (48 + Z.to_nat n).

Definition two_digits (n : Z) : string :=
  String (digit (n / 10)) (String (digit (n mod 10)) EmptyString).

(** [strftime(buf, 3, "%H", &timeinfo)] and its like with [%M] and [%S]:
    two decimal digits, zero padded, and the terminator fill the three
    bytes.  A number outside 0..99 does not fit; C leaves the buffer
    indeterminate then, here it is left as it was. *)
Definition strftime_02d (buf : string) (n : Z) : string :=
  if (0 <=? n) && (n <? 100) then two_digits n else buf.

(** The four variables each sketch keeps in RTC memory ([RTC_DATA_ATTR]):
    they survive deep sleep and are zero after a power loss. *)
Record RTC : Type :=
  { hour : string; minut : string; sec : string; yettimed : bool }.

Definition cold : RTC :=
  {| hour := EmptyString; minut := EmptyString; sec := EmptyString;
     yettimed := false |}.

(** The calls that reach outside the program. *)
Inductive Action : Type :=
| dht_begin
| dht_readHumidity
| dht_readTemperature
| pinMode_OUTPUT (pin : Z)
| analogWrite (pin value : Z)
| WiFi_begin
| WiFi_status (connected : bool)
| delay (ms : Z)
| WiFi_disconnect
| WiFi_mode_OFF
| configTime
| getLocalTime (ok : bool)
| esp_sleep_enable_timer_wakeup (us : Z)
| mesh_setDebugMsgTypes
| mesh_init
| mesh_onReceive
| mesh_onNewConnection
| mesh_onChangedConnections
| mesh_onNodeTimeAdjusted
| mesh_sendBroadcast (msg : Text)
| userScheduler_addTask
| taskSendMessage_enable
| taskSendMessage_disable
| esp_deep_sleep_start.

(** [while (WiFi.status() != WL_CONNECTED) { delay(500); ... }] when the
    link comes up after [polls] failed polls. *)
Fixpoint wait_connected (polls : nat) : list Action :=
  match polls with
  | O => [WiFi_status true]
  | S n => WiFi_status false :: delay 500 :: wait_connected n
  end.

(** How [setup] ends: it returns, or it polls the WiFi status for ever
    (the link never comes up), having done [done] before the loop. *)
Inductive outcome (state : Type) : Type :=
| Returns (s : state)
| Blocked (done : list Action).
Arguments Returns {state} s.
Arguments Blocked {state} done.

Definition is_sent (a : Action) : bool :=
  match a with mesh_sendBroadcast _ => true | _ => false end.

Definition is_WiFi (a : Action) : bool :=
  match a with
  | WiFi_begin | WiFi_status _ | WiFi_disconnect | WiFi_mode_OFF => true
  | _ => false
  end.

Definition is_sleep (a : Action) : bool :=
  match a with esp_deep_sleep_start => true | _ => false end.

(** The messages broadcast so far, oldest first. *)
Definition sent (tr : list Action) : list Text :=
  flat_map (fun a => match a with mesh_sendBroadcast m => [m] | _ => [] end) tr.

(** ** Node1_21sep.ino: the sensor node *)

Module Node1.

Definition uS_TO_S_FACTOR : Z := 1000000.
Definition TIME_TO_SLEEP : Z := 5.
Definition nodeNumber : Z := 1.

(** The globals the sketch writes, whether [taskSendMessage] is enabled,
    whether the chip has gone to deep sleep, and the calls made. *)
Record state : Type :=
  { rtc : RTC;
    readings : Text;
    taskEnabled : bool;
    asleep : bool;
    trace : list Action }.

Definition with_rtc (r : RTC) (s : state) : state :=
  {| rtc := r; readings := readings s; taskEnabled := taskEnabled s;
     asleep := asleep s; trace := trace s |}.

Definition with_readings (t : Text) (s : state) : state :=
  {| rtc := rtc s; readings := t; taskEnabled := taskEnabled s;
     asleep := asleep s; trace := trace s |}.

Definition with_task (b : bool) (s : state) : state :=
  {| rtc := rtc s; readings := readings s; taskEnabled := b;
     asleep := asleep s; trace := trace s |}.

Definition with_asleep (b : bool) (s : state) : state :=
  {| rtc := rtc s; readings := readings s; taskEnabled := taskEnabled s;
     asleep := b; trace := trace s |}.

Definition call (acts : list Action) (s : state) : state :=
  {| rtc := rtc s; readings := readings s; taskEnabled := taskEnabled s;
     asleep := asleep s; trace := trace s ++ acts |}.

(** The state a boot starts from: RTC memory as the last cycle left it,
    every other global as its initialiser has it. *)
Definition boot (r : RTC) : state :=
  {| rtc := r; readings := Undefined; taskEnabled := false;
     asleep := false; trace := [] |}.

(** [printLocalTime]; [now] is what [getLocalTime] answers. *)
Definition printLocalTime (now : option tm) (s : state) : state :=
  match now with
  | None => call [getLocalTime false] s
  | Some timeinfo =>
      let s := call [getLocalTime true] s in
      let r := rtc s in
      with_rtc {| hour := strftime_02d (hour r) (tm_hour timeinfo);
                  minut := strftime_02d (minut r) (tm_min timeinfo);
                  sec := strftime_02d (sec r) (tm_sec timeinfo);
                  yettimed := yettimed r |} s
  end.

(** [getReadings]; [humidity] and [temperature] are what the DHT sensor
    answers. *)
Definition getReadings (now : option tm) (humidity temperature : float)
                       (s : state) : Text * state :=
  let s := printLocalTime now s in
  let s := call [dht_readHumidity] s in
  let s := call [dht_readTemperature] s in
  let jsonReadings := Undefined in
  let jsonReadings := set "node" (Int nodeNumber) jsonReadings in
  let jsonReadings := set "temp" (Double (float_to_double temperature)) jsonReadings in
  let jsonReadings := set "hum" (Double (float_to_double humidity)) jsonReadings in
  let jsonReadings := set "hour" (Str (hour (rtc s))) jsonReadings in
  let jsonReadings := set "min" (Str (minut (rtc s))) jsonReadings in
  let jsonReadings := set "sec" (Str (sec (rtc s))) jsonReadings in
  let s := with_readings (stringify jsonReadings) s in
  (readings s, s).

Definition sendMessage (now : option tm) (humidity temperature : float)
                       (s : state) : state :=
  let '(msg, s) := getReadings now humidity temperature s in
  call [mesh_sendBroadcast msg] s.

(** The locals [receivedCallback] fills from the message. *)
Record received : Type :=
  { r_hour : Z; r_min : Z; r_sec : Z; r_node : Z; r_color : string }.

Definition decode (msg : Text) : received :=
  let myObject := parse msg in
  {| r_hour := to_int (get "hour" myObject);
     r_min := to_int (get "min" myObject);
     r_sec := to_int (get "sec" myObject);
     r_node := to_int (get "node" myObject);
     r_color := to_String (get "color" myObject) |}.

(** [receivedCallback]: the locals [hour], [min], [sec], [node] and
    [color] are printed and dropped; the globals [hour] and [sec] are
    hidden by the locals and [minut] is only read. *)
Definition receivedCallback (from : Z) (msg : Text) (s : state) : state :=
  let locals := decode msg in
  let s := call [taskSendMessage_disable] (with_task false s) in
  let r := rtc s in
  let s := with_rtc {| hour := hour r; minut := minut r; sec := sec r;
                       yettimed := true |} s in
  with_asleep true (call [esp_deep_sleep_start] s).

Definition bind (o : outcome state) (k : state -> outcome state) : outcome state :=
  match o with
  | Returns s => k s
  | Blocked done => Blocked done
  end.

(** [setup]; [wifi] is the number of failed polls before the WiFi link
    is up ([None]: it never comes up), [now] what [getLocalTime]
    answers. *)
Definition setup (wifi : option nat) (now : option tm) (r : RTC) : outcome state :=
  let s := call [dht_begin] (boot r) in
  bind
    (if negb (yettimed (rtc s)) then
       let s := call [WiFi_begin] s in
       match wifi with
       | None => Blocked (trace s)
       | Some polls =>
           let s := call (wait_connected polls) s in
           let s := call [configTime] s in
           let s := printLocalTime now s in
           Returns (call [WiFi_disconnect; WiFi_mode_OFF] s)
       end
     else
       let s := call [configTime] s in
       Returns (printLocalTime now s))
    (fun s =>
       let s := call [esp_sleep_enable_timer_wakeup (TIME_TO_SLEEP * uS_TO_S_FACTOR)] s in
       let s := call [mesh_setDebugMsgTypes; mesh_init; mesh_onReceive;
                      mesh_onNewConnection; mesh_onChangedConnections;
                      mesh_onNodeTimeAdjusted] s in
       let s := call [userScheduler_addTask] s in
       Returns (call [taskSendMessage_enable] (with_task true s))).

(** What one [mesh.update()] of [loop] can run: the receive callback on
    an incoming message, or the task when it is due. *)
Inductive event : Type :=
| Receive (from : Z) (msg : Text)
| TaskDue (now : option tm) (humidity temperature : float).

Definition update (s : state) (e : event) : state :=
  if asleep s then s
  else
    match e with
    | Receive from msg => receivedCallback from msg s
    | TaskDue now humidity temperature =>
        if taskEnabled s then sendMessage now humidity temperature s else s
    end.

Definition loop (es : list event) (s : state) : state := fold_left update es s.

Definition is_Receive (e : event) : bool :=
  match e with Receive _ _ => true | TaskDue _ _ _ => false end.

End Node1.

(** ** Node2_21sep.ino: the actuator node *)

Module Node2.

Definition uS_TO_S_FACTOR : Z := 1000000.
(** [#define TIME_TO_SLEEP 5.1]: a [double] literal. *)
Definition TIME_TO_SLEEP : double := double_of_ratio 51 10.

Definition redPin : Z := 13.
Definition greenPin : Z := 12.
Definition bluePin : Z := 14.

Definition nodeNumber : Z := 2.

Record state : Type :=
  { rtc : RTC;
    node : Z;
    temp : double;
    hum : double;
    Color : string;
    readings : Text;
    taskEnabled : bool;
    asleep : bool;
    trace : list Action }.

Definition with_rtc (r : RTC) (s : state) : state :=
  {| rtc := r; node := node s; temp := temp s; hum := hum s;
     Color := Color s; readings := readings s;
     taskEnabled := taskEnabled s; asleep := asleep s; trace := trace s |}.

Definition with_fields (n : Z) (t h : double) (s : state) : state :=
  {| rtc := rtc s; node := n; temp := t; hum := h;
     Color := Color s; readings := readings s;
     taskEnabled := taskEnabled s; asleep := asleep s; trace := trace s |}.

Definition with_Color (c : string) (s : state) : state :=
  {| rtc := rtc s; node := node s; temp := temp s; hum := hum s;
     Color := c; readings := readings s;
     taskEnabled := taskEnabled s; asleep := asleep s; trace := trace s |}.

Definition with_readings (t : Text) (s : state) : state :=
  {| rtc := rtc s; node := node s; temp := temp s; hum := hum s;
     Color := Color s; readings := t;
     taskEnabled := taskEnabled s; asleep := asleep s; trace := trace s |}.

Definition with_task (b : bool) (s : state) : state :=
  {| rtc := rtc s; node := node s; temp := temp s; hum := hum s;
     Color := Color s; readings := readings s;
     taskEnabled := b; asleep := asleep s; trace := trace s |}.

Definition with_asleep (b : bool) (s : state) : state :=
  {| rtc := rtc s; node := node s; temp := temp s; hum := hum s;
     Color := Color s; readings := readings s;
     taskEnabled := taskEnabled s; asleep := b; trace := trace s |}.

Definition call (acts : list Action) (s : state) : state :=
  {| rtc := rtc s; node := node s; temp := temp s; hum := hum s;
     Color := Color s; readings := readings s;
     taskEnabled := taskEnabled s; asleep := asleep s;
     trace := trace s ++ acts |}.

Definition boot (r : RTC) : state :=
  {| rtc := r; node := 0; temp := S754_zero false; hum := S754_zero false;
     Color := EmptyString; readings := Undefined;
     taskEnabled := false; asleep := false; trace := [] |}.

Definition printLocalTime (now : option tm) (s : state) : state :=
  match now with
  | None => call [getLocalTime false] s
  | Some timeinfo =>
      let s := call [getLocalTime true] s in
      let r := rtc s in
      with_rtc {| hour := strftime_02d (hour r) (tm_hour timeinfo);
                  minut := strftime_02d (minut r) (tm_min timeinfo);
                  sec := strftime_02d (sec r) (tm_sec timeinfo);
                  yettimed := yettimed r |} s
  end.

Definition getReadings (now : option tm) (s : state) : Text * state :=
  let s := printLocalTime now s in
  let jsonReadings := Undefined in
  let jsonReadings := set "node" (Int nodeNumber) jsonReadings in
  let jsonReadings := set "color" (Str (Color s)) jsonReadings in
  let jsonReadings := set "hour" (Str (hour (rtc s))) jsonReadings in
  let jsonReadings := set "min" (Str (minut (rtc s))) jsonReadings in
  let jsonReadings := set "sec" (Str (sec (rtc s))) jsonReadings in
  let s := with_readings (stringify jsonReadings) s in
  (readings s, s).

Definition sendMessage (now : option tm) (s : state) : state :=
  let '(msg, s) := getReadings now s in
  let s := call [mesh_sendBroadcast msg] s in
  let s := call [taskSendMessage_disable] (with_task false s) in
  let r := rtc s in
  let s := with_rtc {| hour := hour r; minut := minut r; sec := sec r;
                       yettimed := true |} s in
  with_asleep true (call [esp_deep_sleep_start] s).

Definition setColor (redValue greenValue blueValue : Z) (s : state) : state :=
  call [analogWrite redPin redValue; analogWrite greenPin greenValue;
        analogWrite bluePin blueValue] s.

(** [condition(float temp, int hum)]: the literal [29] is converted to
    [float] for the comparison; [hum] is not read. *)
Definition condition (temp : float) (hum : Z) (s : state) : state :=
  if float_gt temp (float_of_int 29) then
    with_Color "Red" (setColor 255 0 0 s)
  else
    with_Color "Green" (setColor 0 255 0 s).

(** The locals [receivedCallback] fills from the message. *)
Record received : Type := { r_hour : Z; r_min : Z; r_sec : Z }.

Definition decode (msg : Text) : received * (Z * double * double) :=
  let myObject := parse msg in
  ({| r_hour := to_int (get "hour" myObject);
      r_min := to_int (get "min" myObject);
      r_sec := to_int (get "sec" myObject) |},
   (to_int (get "node" myObject),
    to_double (get "temp" myObject),
    to_double (get "hum" myObject))).

(** [receivedCallback]: [hour], [min] and [sec] are locals, [node],
    [temp] and [hum] the globals; the call of [condition] narrows [temp]
    to [float] and truncates [hum] to [int]. *)
Definition receivedCallback (from : Z) (msg : Text) (s : state) : state :=
  let '(locals, (n, t, h)) := decode msg in
  let s := with_fields n t h s in
  let s := condition (double_to_float (temp s)) (double_to_int (hum s)) s in
  call [taskSendMessage_enable] (with_task true s).

Definition bind (o : outcome state) (k : state -> outcome state) : outcome state :=
  match o with
  | Returns s => k s
  | Blocked done => Blocked done
  end.

(** The argument of [esp_sleep_enable_timer_wakeup]: the product is a
    [double], the parameter a [uint64_t]. *)
Definition sleep_us : Z :=
  double_to_int (double_mul TIME_TO_SLEEP (double_of_int uS_TO_S_FACTOR)).

Definition setup (wifi : option nat) (now : option tm) (r : RTC) : outcome state :=
  let s := call [pinMode_OUTPUT redPin; pinMode_OUTPUT greenPin;
                 pinMode_OUTPUT bluePin] (boot r) in
  bind
    (if negb (yettimed (rtc s)) then
       let s := call [WiFi_begin] s in
       match wifi with
       | None => Blocked (trace s)
       | Some polls =>
           let s := call (wait_connected polls) s in
           let s := call [configTime] s in
           let s := printLocalTime now s in
           Returns (call [WiFi_disconnect; WiFi_mode_OFF] s)
       end
     else
       let s := call [configTime] s in
       Returns (printLocalTime now s))
    (fun s =>
       let s := call [esp_sleep_enable_timer_wakeup sleep_us] s in
       let s := call [mesh_setDebugMsgTypes; mesh_init; mesh_onReceive;
                      mesh_onNewConnection; mesh_onChangedConnections;
                      mesh_onNodeTimeAdjusted] s in
       Returns (call [userScheduler_addTask] s)).

Inductive event : Type :=
| Receive (from : Z) (msg : Text)
| TaskDue (now : option tm).

Definition update (s : state) (e : event) : state :=
  if asleep s then s
  else
    match e with
    | Receive from msg => receivedCallback from msg s
    | TaskDue now => if taskEnabled s then sendMessage now s else s
    end.

Definition loop (es : list event) (s : state) : state := fold_left update es s.

End Node2.

(** ** Vocabulary of the statements *)

(** A text whose only member is [temp]. *)
Definition temp_only (t : double) : Text :=
  stringify (set "temp" (Double t) Undefined).

(** Whether [getLocalTime] obtained a time. *)
Definition obtained (now : option tm) : bool :=
  match now with Some _ => true | None => false end.

(** What the LED pins are driven to for a colour. *)
Definition indicator (c : string) : list Action :=
  if String.eqb c "Red" then
    [analogWrite Node2.redPin 255; analogWrite Node2.greenPin 0; analogWrite Node2.bluePin 0]
  else
    [analogWrite Node2.redPin 0; analogWrite Node2.greenPin 255; analogWrite Node2.bluePin 0].

(** The Decision text for a colour and a clock. *)
Definition Decision (c : string) (r : RTC) : Text :=
  Object [("node"%string, Int 2); ("color"%string, Str c);
          ("hour"%string, Str (hour r)); ("min"%string, Str (minut r));
          ("sec"%string, Str (sec r))].

(** What holds of every state of a wake cycle: the node is asleep exactly
    when it has called [esp_deep_sleep_start], it has then broadcast one
    message and set the flag, and before that it has broadcast none. *)
Definition cycle_invariant (flag : bool) (s : Node2.state) : Prop :=
  existsb is_sleep (Node2.trace s) = Node2.asleep s /\
  List.length (sent (Node2.trace s)) = (if Node2.asleep s then 1%nat else 0%nat) /\
  yettimed (Node2.rtc s) = (flag || Node2.asleep s)%bool.

(** What [setup] did: the calls of the returned state, or those made
    before it blocked. *)
Definition done_by {state : Type} (tr : state -> list Action) (o : outcome state)
  : list Action :=
  match o with
  | Returns s => tr s
  | Blocked done => done
  end.

(** The state [setup] returned, [dflt] when it blocked. *)
Definition returned {state : Type} (dflt : state) (o : outcome state) : state :=
  match o with
  | Returns s => s
  | Blocked _ => dflt
  end.

(** The durations the wake timer was armed with, in microseconds. *)
Definition armed (tr : list Action) : list Z :=
  flat_map (fun a => match a with esp_sleep_enable_timer_wakeup us => [us] | _ => [] end) tr.

(** The Reading text for a temperature, a humidity and a clock. *)
Definition Reading (temperature humidity : float) (r : RTC) : Text :=
  Object [("node"%string, Int 1);
          ("temp"%string, Double (float_to_double temperature));
          ("hum"%string, Double (float_to_double humidity));
          ("hour"%string, Str (hour r)); ("min"%string, Str (minut r));
          ("sec"%string, Str (sec r))].

(** The clock after [printLocalTime], in either sketch. *)
Definition clock_after (now : option tm) (r : RTC) : RTC :=
  match now with
  | None => r
  | Some timeinfo =>
      {| hour := strftime_02d (hour r) (tm_hour timeinfo);
         minut := strftime_02d (minut r) (tm_min timeinfo);
         sec := strftime_02d (sec r) (tm_sec timeinfo);
         yettimed := yettimed r |}
  end.

(** The task runs of the sensor node before the first message. *)
Fixpoint due_before_receive (es : list Node1.event) : nat :=
  match es with
  | [] => O
  | Node1.Receive _ _ :: _ => O
  | Node1.TaskDue _ _ _ :: es' => S (due_before_receive es')
  end.

Definition is_TaskDue (e : Node2.event) : bool :=
  match e with Node2.TaskDue _ => true | Node2.Receive _ _ => false end.

(** The colour the actuator node decides on a text. *)
Definition colour_of (msg : Text) : string :=
  if float_gt (double_to_float (to_double (get "temp" (parse msg)))) (float_of_int 29)
  then "Red" else "Green".

(** The milliseconds spent in [delay]. *)
Definition delayed (tr : list Action) : Z :=
  fold_right (fun a acc => match a with delay ms => ms + acc | _ => acc end) 0 tr.

(** The value last written to a pin, if any. *)
Fixpoint last_write (pin : Z) (tr : list Action) : option Z :=
  match tr with
  | [] => None
  | a :: tr' =>
      match last_write pin tr' with
      | Some v => Some v
      | None =>
          match a with
          | analogWrite p v => if p =? pin then Some v else None
          | _ => None
          end
      end
  end.

(** The LED shows a colour: red and green as [setColor] drives them for
    it, blue off. *)
Definition LED_shows (c : string) (tr : list Action) : Prop :=
  last_write Node2.bluePin tr = Some 0 /\
  ((c = "Red"%string /\ last_write Node2.redPin tr = Some 255 /\
    last_write Node2.greenPin tr = Some 0) \/
   (c = "Green"%string /\ last_write Node2.redPin tr = Some 0 /\
    last_write Node2.greenPin tr = Some 255)).

(** No pin was written and no colour decided. *)
Definition LED_untouched (c : string) (tr : list Action) : Prop :=
  c = EmptyString /\ last_write Node2.redPin tr = None /\
  last_write Node2.greenPin tr = None /\ last_write Node2.bluePin tr = None.

(** [getLocalTime] fails at every task run. *)
Definition time_fails1 (e : Node1.event) : bool :=
  match e with Node1.TaskDue (Some _) _ _ => false | _ => true end.
Definition time_fails2 (e : Node2.event) : bool :=
  match e with Node2.TaskDue (Some _) => false | _ => true end.

Definition is_decimal (a : Ascii.ascii) : bool :=
  ((48 <=? Ascii.nat_of_ascii a) && (Ascii.nat_of_ascii a <=? 57))%nat.

(** The number a text of decimal digits writes. *)
Definition decimal_value (s : string) : Z :=
  fold_left (fun acc a => 10 * acc + (Z.of_nat (Ascii.nat_of_ascii a) - 48))
            (list_ascii_of_string s) 0.

(** What holds of the LED in every state of a wake cycle of the actuator
    node. *)
Definition LED_invariant (s : Node2.state) : Prop :=
  if Node2.asleep s then
    LED_shows (Node2.Color s) (Node2.trace s) /\
    exists r, sent (Node2.trace s) = [Decision (Node2.Color s) r]
  else
    sent (Node2.trace s) = [] /\
    if Node2.taskEnabled s then LED_shows (Node2.Color s) (Node2.trace s)
    else LED_untouched (Node2.Color s) (Node2.trace s).

(** A field of the clock writes the number [n] in two decimal digits. *)
Definition stamps (n : Z) (s : string) : Prop :=
  String.length s = 2%nat /\
  forallb is_decimal (list_ascii_of_string s) = true /\
  decimal_value s = n.

(** * Properties *)

(** ** Floating point facts the decision rule rests on *)

Lemma digits2_pos_bounds (m : positive) :
  2 ^ (Zpos (digits2_pos m) - 1) <= Zpos m < 2 ^ Zpos (digits2_pos m).
Proof.
  induction m as [p IH | p IH | ]; cbn [digits2_pos].
  - rewrite Pos2Z.inj_succ, Z.pow_succ_r by lia.
    replace (Z.succ (Zpos (digits2_pos p)) - 1) with (Z.succ (Zpos (digits2_pos p) - 1)) by lia.
    rewrite Z.pow_succ_r by lia. lia.
  - rewrite Pos2Z.inj_succ, Z.pow_succ_r by lia.
    replace (Z.succ (Zpos (digits2_pos p)) - 1) with (Z.succ (Zpos (digits2_pos p) - 1)) by lia.
    rewrite Z.pow_succ_r by lia. lia.
  - cbn. lia.
Qed.

(** Comparing a rational [m * 2^e] with an integer, after scaling both
    sides by [2^k]. *)
Lemma Qlt_scaled (a m e k : Z) :
  0 <= k -> 0 <= e + k ->
  (inject_Z a < inject_Z m * 2 ^ e)%Q <-> a * 2 ^ k < m * 2 ^ (e + k).
Proof.
  intros Hk Hek.
  assert (H2 : ~ (2 == 0)%Q) by discriminate.
  assert (Hpos : (0 < 2 ^ k)%Q) by (apply Qpower_0_lt; reflexivity).
  rewrite Zlt_Qlt, !inject_Z_mult, !Zpower_Qpower by assumption.
  change (inject_Z 2) with 2%Q.
  rewrite Qpower_plus by assumption.
  rewrite Qmult_assoc.
  symmetry. apply Qmult_lt_r. assumption.
Qed.

(** A valid binary32 mantissa and exponent. *)
Lemma bounded32 (m : positive) (e : Z) :
  bounded prec32 emax32 m e = true ->
  -149 <= e <= 104 /\ Zpos m < 2 ^ 24 /\ (-149 < e -> 2 ^ 23 <= Zpos m).
Proof.
  unfold bounded, canonical_mantissa, fexp, emin, prec32, emax32.
  intros H. apply andb_prop in H. destruct H as [Hc He].
  apply Z.eqb_eq in Hc. apply Z.leb_le in He.
  pose proof (digits2_pos_bounds m) as [Hlo Hhi].
  assert (Hd : Zpos (digits2_pos m) <= 24) by lia.
  split; [lia | split].
  - apply Z.lt_le_trans with (1 := Hhi). apply Z.pow_le_mono_r; lia.
  - intros Hsub. assert (Zpos (digits2_pos m) = 24) as E by lia.
    rewrite E in Hlo. exact Hlo.
Qed.

(** [temp > 29] on a valid [float] is the order of the values. *)
Lemma float_gt_29 (x : float) :
  valid_float x = true ->
  float_gt x (float_of_int 29) = true <-> above 29 x.
Proof.
  intros Hv.
  change (float_of_int 29) with (S754_finite false 15204352 (-19)).
  destruct x as [s | s | | s m e]; cbn [above].
  - cbn. split; [discriminate | intros H; inversion H].
  - destruct s; cbn; split; congruence.
  - cbn. split; [discriminate | tauto].
  - cbn in Hv. apply bounded32 in Hv. destruct Hv as (He & Hm & Hn).
    unfold SF2Q. change 29%Q with (inject_Z 29).
    rewrite (Qlt_scaled 29 _ e 149) by lia.
    unfold float_gt, SFltb, SFcompare.
    destruct s; cbn [cond_Zopp].
    + split; [discriminate |].
      intros H. exfalso.
      assert (0 < 2 ^ (e + 149)) by (apply Z.pow_pos_nonneg; lia).
      assert (0 < 2 ^ 149) by (apply Z.pow_pos_nonneg; lia).
      nia.
    + destruct (Z.compare_spec (-19) e) as [E | L | G].
      * subst e. rewrite Pos.compare_cont_spec. cbn [Pos.switch_Eq].
        change (-19 + 149) with 130.
        replace (2 ^ 149) with (2 ^ 19 * 2 ^ 130) by reflexivity.
        assert (0 < 2 ^ 130) by (apply Z.pow_pos_nonneg; lia).
        destruct (Pos.compare_spec 15204352 m) as [E | L | G].
        -- subst m. split; [discriminate | intros; exfalso; nia].
        -- split; [intros _ | reflexivity].
           apply Pos2Z.pos_lt_pos in L. change (2 ^ 19) with 524288. nia.
        -- split; [discriminate | intros; exfalso].
           apply Pos2Z.pos_lt_pos in G. change (2 ^ 19) with 524288 in *. nia.
      * split; [intros _ | reflexivity].
        assert (2 ^ 23 <= Zpos m) as Hlo by (apply Hn; lia).
        assert (2 ^ 131 <= 2 ^ (e + 149)) by (apply Z.pow_le_mono_r; lia).
        replace (2 ^ 149) with (2 ^ 18 * 2 ^ 131) by reflexivity.
        assert (0 < 2 ^ 131) by (apply Z.pow_pos_nonneg; lia).
        change (2 ^ 23) with 8388608 in *. change (2 ^ 18) with 262144.
        nia.
      * split; [discriminate | intros; exfalso].
        assert (2 ^ (e + 149) <= 2 ^ 129) by (apply Z.pow_le_mono_r; lia).
        assert (0 < 2 ^ (e + 149)) by (apply Z.pow_pos_nonneg; lia).
        replace (2 ^ 149) with (2 ^ 20 * 2 ^ 129) in * by reflexivity.
        change (2 ^ 24) with 16777216 in *. change (2 ^ 20) with 1048576 in *.
        nia.
Qed.

Lemma iter_pos_iter {A} (f : A -> A) (p : positive) (x : A) :
  iter_pos f p x = Pos.iter f x p.
Proof.
  revert x. induction p as [p IH | p IH | ]; intros x; cbn [iter_pos Pos.iter].
  - rewrite !IH, !Pos.iter_swap. reflexivity.
  - rewrite !IH. reflexivity.
  - reflexivity.
Qed.

Lemma digits2_pos_shift (m k : positive) :
  digits2_pos (Pos.iter xO m k) = (digits2_pos m + k)%positive.
Proof.
  induction k as [ | k IH] using Pos.peano_ind.
  - cbn. rewrite Pos.add_1_r. reflexivity.
  - rewrite Pos.iter_succ. cbn [digits2_pos]. rewrite IH. lia.
Qed.

Lemma shr_shift (m k : positive) :
  iter_pos shr_1 k (Build_shr_record (Zpos (Pos.iter xO m k)) false false)
  = Build_shr_record (Zpos m) false false.
Proof.
  rewrite iter_pos_iter.
  induction k as [ | k IH] using Pos.peano_ind.
  - reflexivity.
  - rewrite (Pos.iter_succ_r k _ shr_1), (Pos.iter_succ k _ xO).
    cbn [shr_1 orb]. exact IH.
Qed.

Lemma Zpos_shift (m k : positive) : Zpos (Pos.iter xO m k) = Zpos m * 2 ^ Zpos k.
Proof.
  induction k as [ | k IH] using Pos.peano_ind.
  - cbn. lia.
  - rewrite Pos.iter_succ, Pos2Z.inj_succ, Z.pow_succ_r by lia.
    rewrite Pos2Z.inj_xO, IH. lia.
Qed.

(** Widening a valid float: the mantissa is shifted up to 53 bits. *)
Lemma float_to_double_finite (s : bool) (m : positive) (e : Z) :
  bounded prec32 emax32 m e = true ->
  let k := Z.to_pos (53 - Zpos (digits2_pos m)) in
  float_to_double (S754_finite s m e)
  = S754_finite s (Pos.iter xO m k) (e - Zpos k).
Proof.
  intros Hb k.
  pose proof (bounded32 m e Hb) as (He & Hm & Hn).
  pose proof (digits2_pos_bounds m) as [Hlo Hhi].
  assert (Hd : Zpos (digits2_pos m) <= 24).
  { destruct (Z_le_gt_dec (Zpos (digits2_pos m)) 24) as [L | G]; [exact L | exfalso].
    assert (2 ^ 24 <= 2 ^ (Zpos (digits2_pos m) - 1)) by (apply Z.pow_le_mono_r; lia).
    lia. }
  assert (Hk : Zpos k = 53 - Zpos (digits2_pos m)) by (unfold k; rewrite Z2Pos.id; lia).
  unfold float_to_double, binary_round, shl_align, fexp, emin, prec64, emax64.
  replace (Z.max (Zpos (digits2_pos m) + e - 53) (3 - 1024 - 53) - e) with (Zneg k) by lia.
  replace (Z.max (Zpos (digits2_pos m) + e - 53) (3 - 1024 - 53)) with (e - Zpos k) by lia.
  unfold binary_round_aux, shr_fexp, fexp, emin. cbn [Zdigits2].
  rewrite digits2_pos_shift, Pos2Z.inj_add.
  replace (Z.max (Zpos (digits2_pos m) + Zpos k + (e - Zpos k) - 53) (3 - 1024 - 53) - (e - Zpos k)) with 0 by lia.
  cbn [shr shr_record_of_loc loc_of_shr_record shr_m round_nearest_even Zdigits2].
  rewrite digits2_pos_shift, Pos2Z.inj_add.
  replace (Z.max (Zpos (digits2_pos m) + Zpos k + (e - Zpos k) - 53) (3 - 1024 - 53) - (e - Zpos k)) with 0 by lia.
  cbn [shr shr_m].
  replace (e - Zpos k <=? 1024 - 53) with true by (symmetry; apply Z.leb_le; lia).
  reflexivity.
Qed.

(** Narrowing what was widened gives the float back. *)
Lemma float_double_float (x : float) :
  valid_float x = true -> double_to_float (float_to_double x) = x.
Proof.
  destruct x as [s | s | | s m e]; try reflexivity.
  intros Hb. cbn in Hb.
  rewrite (float_to_double_finite s m e Hb).
  pose proof (bounded32 m e Hb) as (He & Hm & Hn).
  pose proof (digits2_pos_bounds m) as [Hlo Hhi].
  assert (Hd : Zpos (digits2_pos m) <= 24).
  { destruct (Z_le_gt_dec (Zpos (digits2_pos m)) 24) as [L | G]; [exact L | exfalso].
    assert (2 ^ 24 <= 2 ^ (Zpos (digits2_pos m) - 1)) by (apply Z.pow_le_mono_r; lia).
    lia. }
  assert (Hc : Z.max (Zpos (digits2_pos m) + e - 24) (-149) = e).
  { unfold bounded, canonical_mantissa, fexp, emin, prec32, emax32 in Hb.
    apply andb_prop in Hb. destruct Hb as [Hc _]. apply Z.eqb_eq in Hc. exact Hc. }
  set (k := Z.to_pos (53 - Zpos (digits2_pos m))).
  assert (Hk : Zpos k = 53 - Zpos (digits2_pos m)) by (unfold k; rewrite Z2Pos.id; lia).
  unfold double_to_float, binary_round, shl_align, fexp, emin, prec32, emax32.
  rewrite digits2_pos_shift, Pos2Z.inj_add.
  replace (Z.max (Zpos (digits2_pos m) + Zpos k + (e - Zpos k) - 24) (3 - 128 - 24)) with e by lia.
  replace (e - (e - Zpos k)) with (Zpos k) by lia.
  unfold binary_round_aux, shr_fexp, fexp, emin. cbn [Zdigits2].
  rewrite digits2_pos_shift, Pos2Z.inj_add.
  replace (Z.max (Zpos (digits2_pos m) + Zpos k + (e - Zpos k) - 24) (3 - 128 - 24) - (e - Zpos k)) with (Zpos k) by lia.
  cbn [shr shr_record_of_loc]. rewrite shr_shift.
  cbn [loc_of_shr_record shr_m round_nearest_even Zdigits2].
  replace (e - Zpos k + Zpos k) with e by lia.
  replace (Z.max (Zpos (digits2_pos m) + e - 24) (3 - 128 - 24) - e) with 0 by lia.
  cbn [shr shr_m].
  replace (e <=? 128 - 24) with true by (symmetry; apply Z.leb_le; lia).
  reflexivity.
Qed.

(** Widening keeps the value. *)
Lemma above_float_to_double (q : Q) (x : float) :
  valid_float x = true -> above q (float_to_double x) <-> above q x.
Proof.
  destruct x as [s | s | | s m e]; try (intros; cbn; tauto).
  intros Hb. cbn in Hb.
  rewrite (float_to_double_finite s m e Hb).
  set (k := Z.to_pos (53 - Zpos (digits2_pos m))).
  cbn [above SF2Q].
  assert (E : (inject_Z (cond_Zopp s (Zpos (Pos.iter xO m k))) * 2 ^ (e - Zpos k)
               == inject_Z (cond_Zopp s (Zpos m)) * 2 ^ e)%Q).
  { assert (H2 : ~ (2 == 0)%Q) by discriminate.
    replace (cond_Zopp s (Zpos (Pos.iter xO m k)))
      with (cond_Zopp s (Zpos m) * 2 ^ Zpos k)
      by (rewrite Zpos_shift; destruct s; cbn [cond_Zopp]; lia).
    rewrite inject_Z_mult, Zpower_Qpower by lia.
    change (inject_Z 2) with 2%Q.
    unfold Z.sub. rewrite Qpower_plus, Qpower_opp by assumption.
    field. apply Qpower_not_0. assumption. }
  rewrite E. tauto.
Qed.

(** The number of binary digits is fixed by the powers of two around the
    number. *)
Lemma digits2_pos_unique (m : positive) (k : Z) :
  2 ^ (k - 1) <= Zpos m < 2 ^ k -> Zpos (digits2_pos m) = k.
Proof.
  intros [Hlo Hhi].
  pose proof (digits2_pos_bounds m) as [Dlo Dhi].
  set (d := Zpos (digits2_pos m)) in *.
  assert (Hd : 1 <= d) by (unfold d; lia).
  assert (Hk : 1 <= k).
  { destruct (Z_lt_le_dec k 1) as [L | G]; [exfalso | exact G].
    destruct (Z_lt_le_dec k 0) as [L0 | G0].
    - rewrite Z.pow_neg_r in Hhi by exact L0. lia.
    - replace k with 0 in Hhi by lia. cbn in Hhi. lia. }
  destruct (Z.lt_trichotomy k d) as [L | [E | G]]; [exfalso | symmetry; exact E | exfalso].
  - assert (2 ^ k <= 2 ^ (d - 1)) by (apply Z.pow_le_mono_r; lia). lia.
  - assert (2 ^ d <= 2 ^ (k - 1)) by (apply Z.pow_le_mono_r; lia). lia.
Qed.

(** A mantissa below [2^24] that is at least [2^23] unless the exponent is
    the least one is canonical for binary32. *)
Lemma canonical32 (m : positive) (e : Z) :
  Zpos m < 2 ^ 24 -> (e = -149 \/ 2 ^ 23 <= Zpos m) -> -149 <= e ->
  canonical_mantissa prec32 emax32 m e = true.
Proof.
  intros Hhi Hlo He.
  unfold canonical_mantissa, fexp, emin, prec32, emax32. apply Z.eqb_eq.
  pose proof (digits2_pos_bounds m) as [Dlo Dhi].
  set (d := Zpos (digits2_pos m)) in *.
  assert (Hd1 : 1 <= d) by (unfold d; lia).
  assert (Hd : d <= 24).
  { destruct (Z_le_gt_dec d 24) as [L | G]; [exact L | exfalso].
    assert (2 ^ 24 <= 2 ^ (d - 1)) by (apply Z.pow_le_mono_r; lia). lia. }
  destruct Hlo as [-> | Hlo]; [lia | ].
  assert (d = 24).
  { destruct (Z_le_gt_dec 24 d) as [L | G]; [lia | exfalso].
    assert (2 ^ d <= 2 ^ 23) by (apply Z.pow_le_mono_r; lia). lia. }
  lia.
Qed.

Lemma shr_1_m (mrs : shr_record) :
  0 <= shr_m mrs -> shr_m (shr_1 mrs) = shr_m mrs / 2.
Proof.
  destruct mrs as [m r s]. cbn [shr_m]. intros Hm.
  destruct m as [ | p | p]; [reflexivity | | lia].
  destruct p as [p | p | ]; cbn [shr_1 shr_m].
  - apply (Z.div_unique (Zpos p~1) 2 (Zpos p) 1); lia.
  - apply (Z.div_unique (Zpos p~0) 2 (Zpos p) 0); lia.
  - reflexivity.
Qed.

Lemma shr_iter_m (p : positive) (mrs : shr_record) :
  0 <= shr_m mrs -> shr_m (iter_pos shr_1 p mrs) = shr_m mrs / 2 ^ Zpos p.
Proof.
  intros Hm. rewrite iter_pos_iter.
  induction p as [ | p IH] using Pos.peano_ind.
  - cbn [Pos.iter]. rewrite shr_1_m by exact Hm. reflexivity.
  - rewrite Pos.iter_succ, shr_1_m.
    + rewrite IH, Pos2Z.inj_succ, Z.pow_succ_r by lia.
      rewrite Z.div_div by (try apply Z.pow_pos_nonneg; lia).
      rewrite (Z.mul_comm (2 ^ Zpos p) 2). reflexivity.
    + rewrite IH. apply Z.div_pos; [exact Hm | apply Z.pow_pos_nonneg; lia].
Qed.

Lemma shr_m_of_loc (m : Z) (l : location) : shr_m (shr_record_of_loc m l) = m.
Proof. destruct l as [ | [ | | ]]; reflexivity. Qed.

Lemma round_nearest_even_range (m : Z) (l : location) :
  m <= round_nearest_even m l <= m + 1.
Proof.
  destruct l as [ | [ | | ]]; cbn [round_nearest_even]; try lia.
  destruct (Z.even m); lia.
Qed.

(** The first shift of [binary_round_aux]: the mantissa is divided by the
    power of two that brings the exponent to [fexp]. *)
Lemma shr_fexp_shift (m : positive) (e : Z) (l : location) :
  e <= fexp prec32 emax32 (Zpos (digits2_pos m) + e) ->
  let f := fexp prec32 emax32 (Zpos (digits2_pos m) + e) in
  snd (shr_fexp prec32 emax32 (Zpos m) e l) = f /\
  shr_m (fst (shr_fexp prec32 emax32 (Zpos m) e l)) = Zpos m / 2 ^ (f - e).
Proof.
  intros Hn f. unfold shr_fexp, shr. cbn [Zdigits2]. fold f.
  destruct (f - e) as [ | p | p] eqn:En.
  - cbn [fst snd]. rewrite shr_m_of_loc, Z.div_1_r. split; [lia | reflexivity].
  - cbn [fst snd]. rewrite shr_iter_m by (rewrite shr_m_of_loc; lia).
    rewrite shr_m_of_loc. split; [lia | reflexivity].
  - exfalso. unfold f in En. lia.
Qed.

Lemma shr_fexp_canonical (p : positive) (f : Z) :
  canonical_mantissa prec32 emax32 p f = true ->
  shr_fexp prec32 emax32 (Zpos p) f loc_Exact
  = (Build_shr_record (Zpos p) false false, f).
Proof.
  unfold canonical_mantissa, shr_fexp. cbn [Zdigits2]. intros H.
  apply Z.eqb_eq in H. rewrite H, Z.sub_diag. reflexivity.
Qed.

(** What [binary_round_aux] returns is a valid binary32 value, when the
    exponent it is given is not above the one of the format. *)
Lemma binary_round_aux_valid32 (s : bool) (m : positive) (e : Z) (l : location) :
  e <= fexp prec32 emax32 (Zpos (digits2_pos m) + e) ->
  valid_binary prec32 emax32 (binary_round_aux prec32 emax32 s (Zpos m) e l) = true.
Proof.
  intros Hn. unfold binary_round_aux.
  destruct (shr_fexp_shift m e l Hn) as [He1 Hm1].
  destruct (shr_fexp prec32 emax32 (Zpos m) e l) as [mrs1 e1] eqn:E1.
  cbn [fst snd] in He1, Hm1.
  set (d := Zpos (digits2_pos m)) in *.
  set (f := fexp prec32 emax32 (d + e)) in *.
  pose proof (digits2_pos_bounds m) as [Dlo Dhi]. fold d in Dlo, Dhi.
  assert (Hd : 1 <= d) by (unfold d; lia).
  assert (Hf : f = Z.max (d + e - 24) (-149)) by reflexivity.
  assert (Hpow : 0 < 2 ^ (f - e)) by (apply Z.pow_pos_nonneg; lia).
  set (m1 := shr_m mrs1) in *.
  assert (A0 : 0 <= m1) by (rewrite Hm1; apply Z.div_pos; lia).
  assert (A1 : m1 < 2 ^ 24).
  { rewrite Hm1. apply Z.div_lt_upper_bound; [exact Hpow | ].
    rewrite <- Z.pow_add_r by lia.
    apply Z.lt_le_trans with (1 := Dhi). apply Z.pow_le_mono_r; lia. }
  assert (A2 : f = -149 \/ 2 ^ 23 <= m1).
  { destruct (Z.eq_dec f (-149)) as [E | N]; [left; exact E | right].
    rewrite Hm1. apply Z.div_le_lower_bound; [exact Hpow | ].
    rewrite <- Z.pow_add_r by lia.
    replace (f - e + 23) with (d - 1) by lia. exact Dlo. }
  assert (A3 : -149 <= f) by lia.
  subst e1.
  pose proof (round_nearest_even_range m1 (loc_of_shr_record mrs1)) as Hr.
  set (m2 := round_nearest_even m1 (loc_of_shr_record mrs1)) in *.
  destruct m2 as [ | p2 | p2] eqn:E2; [ | | lia].
  - (* everything was shifted out and rounded down *)
    unfold shr_fexp, shr. cbn [Zdigits2].
    destruct (fexp prec32 emax32 (0 + f) - f) as [ | q | q] eqn:En; cbn [shr_m];
      try reflexivity.
    exfalso. unfold fexp, emin, prec32, emax32 in En. lia.
  - destruct (Z.eq_dec (Zpos p2) (2 ^ 24)) as [Etop | Ntop].
    + (* the rounding carried into a 25th digit: one more shift *)
      assert (p2 = 16777216%positive) by (change (2 ^ 24) with 16777216 in Etop; congruence).
      subst p2. unfold shr_fexp, shr. cbn [Zdigits2 digits2_pos Pos.succ].
      unfold fexp, emin, prec32, emax32.
      replace (Z.max (25 + f - 24) (3 - 128 - 24) - f) with 1 by lia.
      cbn [iter_pos shr_record_of_loc shr_1 shr_m].
      destruct (f + 1 <=? 128 - 24) eqn:Ele; [ | reflexivity].
      cbn [valid_binary]. unfold bounded. rewrite Ele, andb_true_r.
      apply canonical32; [reflexivity | right; apply Z.le_refl | lia].
    + assert (Hc : canonical_mantissa prec32 emax32 p2 f = true).
      { apply canonical32; [lia | | exact A3].
        destruct A2 as [A2 | A2]; [left; exact A2 | right; lia]. }
      rewrite (shr_fexp_canonical p2 f Hc). cbn [shr_m].
      destruct (f <=? emax32 - prec32) eqn:Ele; [ | reflexivity].
      cbn [valid_binary]. unfold bounded. rewrite Hc, Ele. reflexivity.
Qed.

Lemma binary_round_valid32 (s : bool) (m : positive) (e : Z) :
  valid_binary prec32 emax32 (binary_round prec32 emax32 s m e) = true.
Proof.
  unfold binary_round, shl_align.
  set (f := fexp prec32 emax32 (Zpos (digits2_pos m) + e)).
  destruct (f - e) as [ | p | p] eqn:En.
  - apply binary_round_aux_valid32. fold f. lia.
  - apply binary_round_aux_valid32. fold f. lia.
  - apply binary_round_aux_valid32.
    rewrite digits2_pos_shift, Pos2Z.inj_add.
    replace (Zpos (digits2_pos m) + Zpos p + f) with (Zpos (digits2_pos m) + e) by lia.
    fold f. lia.
Qed.

(** Narrowing gives a valid [float], whatever the [double]. *)
Lemma double_to_float_valid (t : double) : valid_float (double_to_float t) = true.
Proof.
  destruct t as [s | s | | s m e]; try reflexivity.
  apply binary_round_valid32.
Qed.

(** ** The duty cycle of the sensor node *)

Lemma wait_connected_no_sleep (polls : nat) :
  existsb is_sleep (wait_connected polls) = false.
Proof. induction polls as [ | n IH]; [reflexivity | exact IH]. Qed.

Lemma wait_connected_no_sent (polls : nat) : sent (wait_connected polls) = [].
Proof. induction polls as [ | n IH]; [reflexivity | exact IH]. Qed.

Lemma Node1_sendMessage_frame (now : option tm) (h t : float) (s : Node1.state) :
  Node1.asleep (Node1.sendMessage now h t s) = Node1.asleep s /\
  Node1.taskEnabled (Node1.sendMessage now h t s) = Node1.taskEnabled s /\
  yettimed (Node1.rtc (Node1.sendMessage now h t s)) = yettimed (Node1.rtc s) /\
  existsb is_sleep (Node1.trace (Node1.sendMessage now h t s))
  = existsb is_sleep (Node1.trace s).
Proof.
  destruct now as [timeinfo | ]; cbn; rewrite ?existsb_app; cbn;
    rewrite ?orb_false_r; repeat split; reflexivity.
Qed.

Lemma Node1_loop_cons (e : Node1.event) (es : list Node1.event) (s : Node1.state) :
  Node1.loop (e :: es) s = Node1.loop es (Node1.update s e).
Proof. reflexivity. Qed.

Lemma Node1_loop_asleep (es : list Node1.event) (s : Node1.state) :
  Node1.asleep s = true -> Node1.loop es s = s.
Proof.
  intros H. induction es as [ | e es IH]; [reflexivity | ].
  rewrite Node1_loop_cons. unfold Node1.update. rewrite H. exact IH.
Qed.

Lemma Node1_loop_waiting (es : list Node1.event) (s : Node1.state) :
  Node1.asleep s = false ->
  existsb Node1.is_Receive es = false ->
  Node1.asleep (Node1.loop es s) = false /\
  Node1.taskEnabled (Node1.loop es s) = Node1.taskEnabled s /\
  yettimed (Node1.rtc (Node1.loop es s)) = yettimed (Node1.rtc s) /\
  existsb is_sleep (Node1.trace (Node1.loop es s)) = existsb is_sleep (Node1.trace s).
Proof.
  revert s. induction es as [ | e es IH]; intros s Hs Hes.
  - repeat split. exact Hs.
  - cbn [existsb] in Hes. apply orb_false_elim in Hes. destruct Hes as [He Hes].
    destruct e as [from msg | now h t]; [discriminate He | ].
    rewrite Node1_loop_cons. unfold Node1.update. rewrite Hs.
    destruct (Node1.taskEnabled s) eqn:Et; cbv beta iota.
    + pose proof (Node1_sendMessage_frame now h t s) as (Fa & Ft & Fy & Fz).
      destruct (IH (Node1.sendMessage now h t s)) as (Ia & It & Iy & Iz);
        [congruence | exact Hes | ].
      repeat split; congruence.
    + destruct (IH s Hs Hes) as (Ia & It & Iy & Iz). repeat split; congruence.
Qed.

Lemma Node1_loop_received (es : list Node1.event) (s : Node1.state) :
  Node1.asleep s = false ->
  existsb Node1.is_Receive es = true ->
  Node1.asleep (Node1.loop es s) = true /\
  Node1.taskEnabled (Node1.loop es s) = false /\
  yettimed (Node1.rtc (Node1.loop es s)) = true /\
  existsb is_sleep (Node1.trace (Node1.loop es s)) = true.
Proof.
  revert s. induction es as [ | e es IH]; intros s Hs Hes; [discriminate Hes | ].
  rewrite Node1_loop_cons. unfold Node1.update. rewrite Hs.
  destruct e as [from msg | now h t].
  - rewrite Node1_loop_asleep by reflexivity.
    cbn. rewrite !existsb_app. cbn. rewrite !orb_true_r. repeat split.
  - cbn [existsb Node1.is_Receive orb] in Hes.
    destruct (Node1.taskEnabled s) eqn:Et; cbv beta iota.
    + pose proof (Node1_sendMessage_frame now h t s) as (Fa & _).
      apply IH; [congruence | exact Hes].
    + apply IH; assumption.
Qed.

Lemma Node1_setup_returns (wifi : option nat) (now : option tm) (r : RTC) (s0 : Node1.state) :
  Node1.setup wifi now r = Returns s0 ->
  Node1.asleep s0 = false /\ Node1.taskEnabled s0 = true /\
  yettimed (Node1.rtc s0) = yettimed r /\
  existsb is_sleep (Node1.trace s0) = false.
Proof.
  unfold Node1.setup. cbn [Node1.rtc Node1.call Node1.boot].
  destruct (yettimed r) eqn:Ey; cbn [negb].
  - destruct now; cbn; intros H; injection H as <-; cbn; rewrite ?Ey; repeat split.
  - destruct wifi as [polls | ]; [ | discriminate].
    destruct now; cbn; intros H; injection H as <-; cbn;
      rewrite ?Ey, ?existsb_app, ?wait_connected_no_sleep; repeat split.
Qed.

(** ** The duty cycle of the actuator node *)

Lemma sent_app (a b : list Action) : sent (a ++ b) = sent a ++ sent b.
Proof. unfold sent. apply flat_map_app. Qed.

Lemma Node2_receivedCallback_effect (from : Z) (msg : Text) (s : Node2.state) :
  let s1 := Node2.receivedCallback from msg s in
  Node2.trace s1 = Node2.trace s ++ indicator (Node2.Color s1) ++ [taskSendMessage_enable] /\
  (Node2.Color s1 = "Red"%string \/ Node2.Color s1 = "Green"%string) /\
  Node2.taskEnabled s1 = true /\
  Node2.asleep s1 = Node2.asleep s /\
  Node2.rtc s1 = Node2.rtc s.
Proof.
  unfold Node2.receivedCallback, Node2.decode, Node2.condition.
  destruct (float_gt _ _); cbn; rewrite <- app_assoc; cbn; auto 10.
Qed.

Lemma Node2_sendMessage_effect (now : option tm) (s : Node2.state) :
  let s2 := Node2.sendMessage now s in
  Node2.trace s2
  = Node2.trace s ++ [getLocalTime (obtained now);
                      mesh_sendBroadcast (Decision (Node2.Color s) (Node2.rtc s2));
                      taskSendMessage_disable; esp_deep_sleep_start] /\
  hour (Node2.rtc s2) = hour (Node2.rtc (Node2.printLocalTime now s)) /\
  minut (Node2.rtc s2) = minut (Node2.rtc (Node2.printLocalTime now s)) /\
  sec (Node2.rtc s2) = sec (Node2.rtc (Node2.printLocalTime now s)) /\
  yettimed (Node2.rtc s2) = true /\
  Node2.taskEnabled s2 = false /\
  Node2.asleep s2 = true.
Proof.
  destruct now as [timeinfo | ]; cbn; rewrite <- !app_assoc; cbn; repeat split.
Qed.

Lemma Node2_loop_cons (e : Node2.event) (es : list Node2.event) (s : Node2.state) :
  Node2.loop (e :: es) s = Node2.loop es (Node2.update s e).
Proof. reflexivity. Qed.

Lemma Node2_loop_app (es es' : list Node2.event) (s : Node2.state) :
  Node2.loop (es ++ es') s = Node2.loop es' (Node2.loop es s).
Proof. unfold Node2.loop. apply fold_left_app. Qed.

Lemma Node2_loop_asleep (es : list Node2.event) (s : Node2.state) :
  Node2.asleep s = true -> Node2.loop es s = s.
Proof.
  intros H. induction es as [ | e es IH]; [reflexivity | ].
  rewrite Node2_loop_cons. unfold Node2.update. rewrite H. exact IH.
Qed.

Lemma Node2_update_invariant (flag : bool) (s : Node2.state) (e : Node2.event) :
  cycle_invariant flag s -> cycle_invariant flag (Node2.update s e).
Proof.
  intros (Hz & Hn & Hy). unfold Node2.update.
  destruct (Node2.asleep s) eqn:Ha; [repeat split; rewrite ?Ha; assumption | ].
  destruct e as [from msg | now].
  - pose proof (Node2_receivedCallback_effect from msg s) as (Ht & Hc & _ & Hs & Hr).
    cbv zeta in Ht, Hc, Hs, Hr. unfold cycle_invariant.
    rewrite Ht, Hs, Hr, Ha, existsb_app, !sent_app, Hz, length_app, Hn.
    destruct Hc as [-> | ->]; repeat split; assumption.
  - destruct (Node2.taskEnabled s); [ | repeat split; rewrite ?Ha; assumption].
    pose proof (Node2_sendMessage_effect now s) as (Ht & _ & _ & _ & Hf & _ & Hs).
    cbv zeta in Ht, Hf, Hs. unfold cycle_invariant.
    rewrite Ht, Hs, Hf, existsb_app, sent_app, Hz, length_app, Hn.
    repeat split. destruct flag; reflexivity.
Qed.

Lemma Node2_loop_invariant (flag : bool) (es : list Node2.event) (s : Node2.state) :
  cycle_invariant flag s -> cycle_invariant flag (Node2.loop es s).
Proof.
  revert s. induction es as [ | e es IH]; intros s H; [exact H | ].
  rewrite Node2_loop_cons. apply IH, Node2_update_invariant, H.
Qed.

Lemma Node2_setup_returns (wifi : option nat) (now : option tm) (r : RTC) (s0 : Node2.state) :
  Node2.setup wifi now r = Returns s0 ->
  Node2.asleep s0 = false /\ Node2.taskEnabled s0 = false /\
  cycle_invariant (yettimed r) s0.
Proof.
  unfold Node2.setup, cycle_invariant. cbn [Node2.rtc Node2.call Node2.boot].
  destruct (yettimed r) eqn:Ey; cbn [negb].
  - destruct now; cbn; intros H; injection H as <-; cbn; rewrite ?Ey; repeat split.
  - destruct wifi as [polls | ]; [ | discriminate].
    destruct now; cbn; intros H; injection H as <-; cbn;
      rewrite ?Ey, ?existsb_app, ?sent_app, ?wait_connected_no_sleep,
        ?wait_connected_no_sent; repeat split.
Qed.

(** Once the task is enabled, the node stays awake with the task enabled
    or has gone to sleep. *)
Lemma Node2_loop_enabled (es : list Node2.event) (s : Node2.state) :
  Node2.asleep s = true \/ Node2.taskEnabled s = true ->
  Node2.asleep (Node2.loop es s) = true \/ Node2.taskEnabled (Node2.loop es s) = true.
Proof.
  revert s. induction es as [ | e es IH]; intros s H; [exact H | ].
  rewrite Node2_loop_cons. apply IH. unfold Node2.update.
  destruct (Node2.asleep s) eqn:Ha; [left; exact Ha | ].
  destruct H as [H | H]; [discriminate | ]. rewrite H.
  destruct e as [from msg | now].
  - right. apply Node2_receivedCallback_effect.
  - left. apply Node2_sendMessage_effect.
Qed.

Lemma Node2_loop_round (es1 es2 es3 : list Node2.event) (from : Z) (msg : Text)
    (now : option tm) (s : Node2.state) :
  Node2.asleep
    (Node2.loop (es1 ++ Node2.Receive from msg :: es2 ++ Node2.TaskDue now :: es3) s)
  = true.
Proof.
  rewrite Node2_loop_app, Node2_loop_cons, Node2_loop_app, Node2_loop_cons.
  set (s1 := Node2.loop es1 s).
  assert (H1 : Node2.asleep (Node2.update s1 (Node2.Receive from msg)) = true \/
               Node2.taskEnabled (Node2.update s1 (Node2.Receive from msg)) = true).
  { unfold Node2.update. destruct (Node2.asleep s1) eqn:Ha; [left; exact Ha | ].
    right. apply Node2_receivedCallback_effect. }
  apply (Node2_loop_enabled es2) in H1.
  set (s2 := Node2.loop es2 _) in *.
  assert (H2 : Node2.asleep (Node2.update s2 (Node2.TaskDue now)) = true).
  { unfold Node2.update. destruct (Node2.asleep s2) eqn:Ha; [exact Ha | ].
    destruct H1 as [H1 | H1]; [discriminate | ]. rewrite H1.
    apply Node2_sendMessage_effect. }
  rewrite Node2_loop_asleep; assumption.
Qed.

(** ** Boot, send and decode *)

Lemma armed_app (a b : list Action) : armed (a ++ b) = armed a ++ armed b.
Proof. unfold armed. apply flat_map_app. Qed.

Lemma wait_connected_not_armed (polls : nat) : armed (wait_connected polls) = [].
Proof. induction polls as [ | n IH]; [reflexivity | exact IH]. Qed.

Lemma wait_connected_WiFi (polls : nat) : existsb is_WiFi (wait_connected polls) = true.
Proof. destruct polls; reflexivity. Qed.

Lemma Node1_getReadings_text (now : option tm) (h t : float) (s : Node1.state) :
  fst (Node1.getReadings now h t s) = Reading t h (clock_after now (Node1.rtc s)).
Proof. destruct now; reflexivity. Qed.

Lemma Node2_getReadings_text (now : option tm) (s : Node2.state) :
  fst (Node2.getReadings now s) = Decision (Node2.Color s) (clock_after now (Node2.rtc s)).
Proof. destruct now; reflexivity. Qed.

Lemma Node1_sendMessage_effect (now : option tm) (h t : float) (s : Node1.state) :
  Node1.trace (Node1.sendMessage now h t s)
  = Node1.trace s ++ [getLocalTime (obtained now); dht_readHumidity; dht_readTemperature;
                      mesh_sendBroadcast (Reading t h (clock_after now (Node1.rtc s)))] /\
  Node1.rtc (Node1.sendMessage now h t s) = clock_after now (Node1.rtc s).
Proof.
  destruct now as [timeinfo | ]; cbn; rewrite <- !app_assoc; cbn; split;
    try reflexivity; destruct (Node1.rtc s); reflexivity.
Qed.

Lemma Node1_setup_WiFi (wifi : option nat) (now : option tm) (r : RTC) :
  existsb is_WiFi (done_by Node1.trace (Node1.setup wifi now r)) = negb (yettimed r).
Proof.
  unfold Node1.setup. cbn [Node1.rtc Node1.call Node1.boot].
  destruct (yettimed r); cbn [negb].
  - destruct now; reflexivity.
  - destruct wifi as [polls | ]; [ | reflexivity].
    destruct now; cbn; rewrite ?existsb_app, ?wait_connected_WiFi; reflexivity.
Qed.

Lemma Node2_setup_WiFi (wifi : option nat) (now : option tm) (r : RTC) :
  existsb is_WiFi (done_by Node2.trace (Node2.setup wifi now r)) = negb (yettimed r).
Proof.
  unfold Node2.setup. cbn [Node2.rtc Node2.call Node2.boot].
  destruct (yettimed r); cbn [negb].
  - destruct now; reflexivity.
  - destruct wifi as [polls | ]; [ | reflexivity].
    destruct now; cbn; rewrite ?existsb_app, ?wait_connected_WiFi; reflexivity.
Qed.

Lemma Node1_setup_armed (wifi : option nat) (now : option tm) (r : RTC) :
  armed (done_by Node1.trace (Node1.setup wifi now r))
  = match Node1.setup wifi now r with Returns _ => [5000000] | Blocked _ => [] end.
Proof.
  unfold Node1.setup. cbn [Node1.rtc Node1.call Node1.boot].
  destruct (yettimed r); cbn [negb].
  - destruct now; reflexivity.
  - destruct wifi as [polls | ]; [ | reflexivity].
    destruct now; cbn; rewrite !armed_app, wait_connected_not_armed; reflexivity.
Qed.

Lemma Node2_setup_armed (wifi : option nat) (now : option tm) (r : RTC) :
  armed (done_by Node2.trace (Node2.setup wifi now r))
  = match Node2.setup wifi now r with Returns _ => [5100000] | Blocked _ => [] end.
Proof.
  unfold Node2.setup. cbn [Node2.rtc Node2.call Node2.boot].
  destruct (yettimed r); cbn [negb].
  - destruct now; reflexivity.
  - destruct wifi as [polls | ]; [ | reflexivity].
    destruct now; cbn; rewrite !armed_app, wait_connected_not_armed; reflexivity.
Qed.

Lemma get_absent (key : string) (msg : Text) :
  has key msg = false -> get key (parse msg) = Null.
Proof.
  unfold has, get. destruct (parse msg); try reflexivity.
  destruct (lookup key members); [discriminate | reflexivity].
Qed.

(** ** The colour decision of the actuator node *)

(** The colour [condition] leaves in [Color]. *)
Lemma condition_Color (temp : float) (hum : Z) (s : Node2.state) :
  Node2.Color (Node2.condition temp hum s)
  = if float_gt temp (float_of_int 29) then "Red"%string else "Green"%string.
Proof.
  unfold Node2.condition. destruct (float_gt temp (float_of_int 29)); reflexivity.
Qed.

Lemma receivedCallback_Color (from : Z) (msg : Text) (s : Node2.state) :
  Node2.Color (Node2.receivedCallback from msg s)
  = if float_gt (double_to_float (to_double (get "temp" (parse msg)))) (float_of_int 29)
    then "Red"%string else "Green"%string.
Proof.
  unfold Node2.receivedCallback, Node2.decode.
  cbn [Node2.Color Node2.call Node2.with_task].
  rewrite condition_Color. reflexivity.
Qed.

(** C1, as the sketch has it.  Let [t] be the temperature the actuator
    node decodes from a received message, a [double].  The call of
    [condition] narrows it to [float], and the colour the receive handler
    decides is Red exactly when the narrowed temperature is above 29 and
    Green exactly when it is not.  When [t] is the [double] of a valid
    [float], as every temperature is that the sensor node writes into a
    Reading, the narrowing changes nothing: Red exactly when [t > 29].  The
    handler decides Green on 29.0, Green on 28.999 and Red on 29.001. *)
Theorem decision_threshold (from : Z) (msg : Text) (s : Node2.state) :
  let decided m := Node2.Color (Node2.receivedCallback from m s) in
  let t := to_double (get "temp" (parse msg)) in
  (decided msg = "Red"%string <-> above 29 (double_to_float t)) /\
  (decided msg = "Green"%string <-> ~ above 29 (double_to_float t)) /\
  (forall x : float,
     valid_float x = true -> t = float_to_double x ->
     (decided msg = "Red"%string <-> above 29 t) /\
     (decided msg = "Green"%string <-> ~ above 29 t)) /\
  decided (temp_only (double_of_int 29)) = "Green"%string /\
  decided (temp_only (double_of_ratio 28999 1000)) = "Green"%string /\
  decided (temp_only (double_of_ratio 29001 1000)) = "Red"%string.
Proof.
  intros decided t. subst decided. cbv beta.
  rewrite !receivedCallback_Color. fold t.
  assert (Hnarrow : ((if float_gt (double_to_float t) (float_of_int 29)
                      then "Red"%string else "Green"%string) = "Red"%string
                     <-> above 29 (double_to_float t)) /\
                    ((if float_gt (double_to_float t) (float_of_int 29)
                      then "Red"%string else "Green"%string) = "Green"%string
                     <-> ~ above 29 (double_to_float t))).
  { pose proof (float_gt_29 _ (double_to_float_valid t)) as H29.
    destruct (float_gt (double_to_float t) (float_of_int 29)).
    - split; split; try reflexivity; try discriminate.
      + intros _. apply H29. reflexivity.
      + intros Hn. exfalso. apply Hn, H29. reflexivity.
    - split; split; try reflexivity; try discriminate.
      + intros Ha. apply H29 in Ha. discriminate.
      + intros _ Ha. apply H29 in Ha. discriminate. }
  destruct Hnarrow as [Hred Hgreen].
  split; [exact Hred | split; [exact Hgreen | split]].
  - intros x Hx Ht.
    rewrite Ht in Hred, Hgreen. rewrite Ht.
    rewrite (float_double_float x Hx) in Hred, Hgreen.
    rewrite (above_float_to_double 29 x Hx), (float_double_float x Hx).
    split; assumption.
  - repeat split.
Qed.

(** The sensor reads 31.5 degrees: the Reading it sends is decided Red. *)
Lemma decision_threshold_witness :
  let x := double_to_float (double_of_ratio 315 10) in
  let msg := fst (Node1.getReadings None (float_of_int 40) x (Node1.boot cold)) in
  Node2.Color (Node2.receivedCallback 1 msg (Node2.boot cold)) = "Red"%string
  <-> above 29 (to_double (get "temp" (parse msg))).
Proof.
  intros x msg.
  destruct (decision_threshold 1 msg (Node2.boot cold)) as (_ & _ & H & _).
  exact (proj1 (H x eq_refl eq_refl)).
Defined.

(** C1 for every decoded temperature fails.  A [double] that no [float]
    represents is narrowed before it is compared: 29 + 2^-21 is above 29
    and is decided Green, its nearest [float] being 29. *)
Lemma narrowing_at_the_threshold :
  let t := S754_finite false (29 * 2 ^ 48 + 2 ^ 27) (-48) in
  valid_double t = true /\
  above 29 t /\
  double_to_float t = float_of_int 29 /\
  Node2.Color (Node2.receivedCallback 1 (temp_only t) (Node2.boot cold)) = "Green"%string.
Proof.
  cbv zeta. split; [reflexivity | ]. split; [ | split; reflexivity].
  unfold above, SF2Q. cbn. reflexivity.
Qed.

(** ** The clock kept in RTC memory *)

(** What [strftime] writes for a field of a time [getLocalTime] filled in. *)
Lemma strftime_02d_fits (buf : string) (n : Z) :
  0 <= n < 100 -> strftime_02d buf n = two_digits n.
Proof.
  intros H. unfold strftime_02d.
  replace (0 <=? n) with true by (symmetry; apply Z.leb_le; lia).
  replace (n <? 100) with true by (symmetry; apply Z.ltb_lt; lia).
  reflexivity.
Qed.

(** C6.  In both sketches: when [getLocalTime] fails, [printLocalTime]
    leaves the hour, the minute and the second kept in RTC memory (and the
    flag) as they were; when it succeeds, the three fields are the two
    digits of the hour, the minute and the second obtained. *)
Theorem printLocalTime_clock
    (timeinfo : tm) (s1 : Node1.state) (s2 : Node2.state) :
  tm_ok timeinfo ->
  Node1.rtc (Node1.printLocalTime None s1) = Node1.rtc s1 /\
  Node2.rtc (Node2.printLocalTime None s2) = Node2.rtc s2 /\
  Node1.rtc (Node1.printLocalTime (Some timeinfo) s1)
  = {| hour := two_digits (tm_hour timeinfo);
       minut := two_digits (tm_min timeinfo);
       sec := two_digits (tm_sec timeinfo);
       yettimed := yettimed (Node1.rtc s1) |} /\
  Node2.rtc (Node2.printLocalTime (Some timeinfo) s2)
  = {| hour := two_digits (tm_hour timeinfo);
       minut := two_digits (tm_min timeinfo);
       sec := two_digits (tm_sec timeinfo);
       yettimed := yettimed (Node2.rtc s2) |}.
Proof.
  intros (Hh & Hm & Hs).
  split; [reflexivity | split; [reflexivity | ]].
  unfold Node1.printLocalTime, Node2.printLocalTime.
  cbn [Node1.rtc Node1.with_rtc Node1.call Node2.rtc Node2.with_rtc Node2.call].
  rewrite !strftime_02d_fits by lia. split; reflexivity.
Qed.

(** A failed and a successful acquisition at 14:30:00, from a clock that
    read 09:15:42. *)
Lemma printLocalTime_clock_witness :
  let r := {| hour := "09"; minut := "15"; sec := "42"; yettimed := false |} in
  let t := {| tm_hour := 14; tm_min := 30; tm_sec := 0 |} in
  Node1.rtc (Node1.printLocalTime None (Node1.boot r)) = r /\
  Node2.rtc (Node2.printLocalTime None (Node2.boot r)) = r /\
  Node1.rtc (Node1.printLocalTime (Some t) (Node1.boot r))
  = {| hour := "14"; minut := "30"; sec := "00"; yettimed := false |} /\
  Node2.rtc (Node2.printLocalTime (Some t) (Node2.boot r))
  = {| hour := "14"; minut := "30"; sec := "00"; yettimed := false |}.
Proof.
  intros r t.
  apply (printLocalTime_clock t (Node1.boot r) (Node2.boot r)).
  unfold tm_ok, t; cbn; lia.
Defined.

(** C10.  In both sketches the receive handler leaves the hour, the
    minute and the second kept in RTC memory as they were, whatever the
    message: the time members of the message go to locals. *)
Theorem receivedCallback_keeps_clock
    (from : Z) (msg : Text) (s1 : Node1.state) (s2 : Node2.state) :
  (hour (Node1.rtc (Node1.receivedCallback from msg s1)) = hour (Node1.rtc s1) /\
   minut (Node1.rtc (Node1.receivedCallback from msg s1)) = minut (Node1.rtc s1) /\
   sec (Node1.rtc (Node1.receivedCallback from msg s1)) = sec (Node1.rtc s1)) /\
  (hour (Node2.rtc (Node2.receivedCallback from msg s2)) = hour (Node2.rtc s2) /\
   minut (Node2.rtc (Node2.receivedCallback from msg s2)) = minut (Node2.rtc s2) /\
   sec (Node2.rtc (Node2.receivedCallback from msg s2)) = sec (Node2.rtc s2)).
Proof.
  split.
  - repeat split.
  - unfold Node2.receivedCallback, Node2.decode, Node2.condition.
    destruct (float_gt _ _); repeat split.
Qed.

(** ** The sensor node sleeps on a message, and only then *)

(** C2.  On the sensor node the receive handler, on every message from
    every sender and in every state, disables the task, sets the flag kept
    in RTC memory and starts deep sleep, and it does the same whatever the
    message is.  In a run of [loop] after [setup] has returned, the node is
    asleep, and has called [esp_deep_sleep_start], exactly when a message
    was received; as long as none was, it stays awake with the task
    enabled and the flag as it was at boot. *)
Theorem sensor_sleeps_on_receive
    (wifi : option nat) (now : option tm) (r : RTC) (s0 : Node1.state)
    (es : list Node1.event) (from : Z) (msg : Text) (s : Node1.state) :
  Node1.setup wifi now r = Returns s0 ->
  (Node1.taskEnabled (Node1.receivedCallback from msg s) = false /\
   yettimed (Node1.rtc (Node1.receivedCallback from msg s)) = true /\
   Node1.asleep (Node1.receivedCallback from msg s) = true /\
   Node1.trace (Node1.receivedCallback from msg s)
   = Node1.trace s ++ [taskSendMessage_disable; esp_deep_sleep_start] /\
   (forall from' msg',
      Node1.receivedCallback from' msg' s = Node1.receivedCallback from msg s)) /\
  Node1.asleep (Node1.loop es s0) = existsb Node1.is_Receive es /\
  existsb is_sleep (Node1.trace (Node1.loop es s0)) = existsb Node1.is_Receive es /\
  (existsb Node1.is_Receive es = false ->
   Node1.taskEnabled (Node1.loop es s0) = true /\
   yettimed (Node1.rtc (Node1.loop es s0)) = yettimed r).
Proof.
  intros Hsetup.
  apply Node1_setup_returns in Hsetup. destruct Hsetup as (Ha & Ht & Hy & Hz).
  split.
  - cbn. rewrite <- app_assoc. repeat split.
  - destruct (existsb Node1.is_Receive es) eqn:Hes.
    + destruct (Node1_loop_received es s0 Ha Hes) as (Ia & _ & _ & Iz).
      split; [exact Ia | split; [exact Iz | discriminate]].
    + destruct (Node1_loop_waiting es s0 Ha Hes) as (Ia & It & Iy & Iz).
      repeat split; congruence.
Qed.

(** A cold boot, two broadcasts, then the answer of the actuator node. *)
Lemma sensor_sleeps_on_receive_witness :
  let now := Some {| tm_hour := 14; tm_min := 30; tm_sec := 0 |} in
  let s1 := returned (Node1.boot cold) (Node1.setup (Some 2%nat) now cold) in
  let es := [Node1.TaskDue now (float_of_int 40) (float_of_int 25);
             Node1.TaskDue now (float_of_int 40) (float_of_int 25);
             Node1.Receive 2 (Decision "Green" (clock_after now cold))] in
  Node1.asleep (Node1.loop es s1) = true.
Proof.
  intros now s1 es.
  exact (proj1 (proj2 (sensor_sleeps_on_receive (Some 2%nat) now cold s1 es
                         2 Undefined s1 eq_refl))).
Defined.

(** ** The actuator node answers once, then sleeps *)

(** C7.  On the actuator node the receive handler, on every message,
    drives the LED pins to the colour it decided and enables the task.
    The send that follows encodes the Decision with that colour and the
    clock as RTC memory holds it, broadcasts it, and after the broadcast
    disables the task, sets the flag and starts deep sleep.  In a run of
    [loop] after [setup] has returned the node has broadcast one message
    if it is asleep and none if it is awake, and it is asleep once a
    message was received and the task ran after it. *)
Theorem actuator_answers_then_sleeps
    (wifi : option nat) (now0 : option tm) (r : RTC) (s0 : Node2.state)
    (es : list Node2.event) (from : Z) (msg : Text) (now : option tm)
    (s : Node2.state) :
  Node2.setup wifi now0 r = Returns s0 ->
  let s1 := Node2.receivedCallback from msg s in
  let s2 := Node2.sendMessage now s1 in
  (Node2.trace s1
   = Node2.trace s ++ indicator (Node2.Color s1) ++ [taskSendMessage_enable] /\
   Node2.taskEnabled s1 = true) /\
  (Node2.trace s2
   = Node2.trace s1 ++ [getLocalTime (obtained now);
                        mesh_sendBroadcast (Decision (Node2.Color s1) (Node2.rtc s2));
                        taskSendMessage_disable; esp_deep_sleep_start] /\
   hour (Node2.rtc s2) = hour (clock_after now (Node2.rtc s)) /\
   minut (Node2.rtc s2) = minut (clock_after now (Node2.rtc s)) /\
   sec (Node2.rtc s2) = sec (clock_after now (Node2.rtc s)) /\
   yettimed (Node2.rtc s2) = true /\
   Node2.asleep s2 = true) /\
  (List.length (sent (Node2.trace (Node2.loop es s0)))
   = (if Node2.asleep (Node2.loop es s0) then 1%nat else 0%nat) /\
   existsb is_sleep (Node2.trace (Node2.loop es s0)) = Node2.asleep (Node2.loop es s0) /\
   yettimed (Node2.rtc (Node2.loop es s0))
   = (yettimed r || Node2.asleep (Node2.loop es s0))%bool) /\
  (forall es1 es2 es3 from' msg' now',
     es = es1 ++ Node2.Receive from' msg' :: es2 ++ Node2.TaskDue now' :: es3 ->
     Node2.asleep (Node2.loop es s0) = true).
Proof.
  intros Hsetup s1 s2.
  apply Node2_setup_returns in Hsetup. destruct Hsetup as (_ & _ & Hinv).
  pose proof (Node2_receivedCallback_effect from msg s) as (Ht & _ & He & _ & Hr).
  pose proof (Node2_sendMessage_effect now s1) as (Hs & Hh & Hm & Hc & Hf & _ & Ha).
  fold s1 in Ht, He, Hr. fold s2 in Hs, Hh, Hm, Hc, Hf, Ha.
  assert (Hclock : Node2.rtc (Node2.printLocalTime now s1) = clock_after now (Node2.rtc s)).
  { rewrite <- Hr. destruct now; reflexivity. }
  rewrite Hclock in Hh, Hm, Hc.
  split; [split; assumption | ].
  split; [repeat split; assumption | ].
  split.
  - destruct (Node2_loop_invariant (yettimed r) es s0 Hinv) as (Iz & In & Iy).
    split; [exact In | split; [exact Iz | exact Iy]].
  - intros es1 es2 es3 from' msg' now' ->. apply Node2_loop_round.
Qed.

(** A warm boot at 14:30:00, the Reading of 25 degrees, then the task. *)
Lemma actuator_answers_then_sleeps_witness :
  let now := Some {| tm_hour := 14; tm_min := 30; tm_sec := 0 |} in
  let warm := {| hour := "14"; minut := "29"; sec := "55"; yettimed := true |} in
  let s0 := returned (Node2.boot warm) (Node2.setup None now warm) in
  let reading := Reading (float_of_int 25) (float_of_int 40) (clock_after now warm) in
  sent (Node2.trace (Node2.sendMessage now (Node2.receivedCallback 1 reading s0)))
  = [Decision "Green" (clock_after now warm)].
Proof.
  intros now warm s0 reading.
  pose proof (actuator_answers_then_sleeps None now warm s0 [] 1 reading now s0 eq_refl)
    as (_ & (H & _) & _).
  rewrite H. reflexivity.
Defined.

(** ** A failed sensor read is sent as it is *)

(** C8.  On the sensor node a send reads the humidity once and the
    temperature once and broadcasts one Reading that holds the two values
    as [double]s, whatever they are; when both are not-a-number, the
    Reading holds not-a-number for both. *)
Theorem sensor_sends_what_it_read
    (now : option tm) (humidity temperature : float) (s : Node1.state) :
  Node1.trace (Node1.sendMessage now humidity temperature s)
  = Node1.trace s ++ [getLocalTime (obtained now);
                      dht_readHumidity; dht_readTemperature;
                      mesh_sendBroadcast
                        (Reading temperature humidity (clock_after now (Node1.rtc s)))] /\
  get "temp" (parse (Reading temperature humidity (clock_after now (Node1.rtc s))))
  = Double (float_to_double temperature) /\
  get "hum" (parse (Reading temperature humidity (clock_after now (Node1.rtc s))))
  = Double (float_to_double humidity) /\
  sent (Node1.trace (Node1.sendMessage now S754_nan S754_nan s))
  = sent (Node1.trace s) ++ [Reading S754_nan S754_nan (clock_after now (Node1.rtc s))] /\
  get "temp" (parse (Reading S754_nan S754_nan (clock_after now (Node1.rtc s))))
  = Double S754_nan /\
  get "hum" (parse (Reading S754_nan S754_nan (clock_after now (Node1.rtc s))))
  = Double S754_nan.
Proof.
  split; [apply Node1_sendMessage_effect | ].
  split; [reflexivity | split; [reflexivity | ]].
  split; [ | split; reflexivity].
  destruct (Node1_sendMessage_effect now S754_nan S754_nan s) as (-> & _).
  rewrite sent_app. reflexivity.
Qed.

(** ** The durations of the wake timer *)


(** ** What a boot does about the time *)

(** C5, as the sketches have it.  In both sketches [setup] calls the WiFi
    driver exactly when the flag kept in RTC memory is false.  With the
    flag false it calls WiFi.begin and waits for the link; if the link
    never comes up it stays in the wait, and when the link is up it calls
    [configTime] and [printLocalTime] and then disconnects and turns the
    WiFi off.  With the flag true it makes no WiFi call and returns, but
    it still calls [configTime] and [printLocalTime]: the clock kept in
    RTC memory is as it was when [getLocalTime] fails, and is overwritten
    with the time obtained when it succeeds. *)
Theorem boot_time_acquisition (wifi : option nat) (now : option tm) (r : RTC) :
  let warm := {| hour := hour r; minut := minut r; sec := sec r; yettimed := true |} in
  let unsynced :=
    {| hour := hour r; minut := minut r; sec := sec r; yettimed := false |} in
  existsb is_WiFi (done_by Node1.trace (Node1.setup wifi now r)) = negb (yettimed r) /\
  existsb is_WiFi (done_by Node2.trace (Node2.setup wifi now r)) = negb (yettimed r) /\
  (exists s1,
     Node1.setup wifi now warm = Returns s1 /\
     Node1.trace s1
     = [dht_begin; configTime; getLocalTime (obtained now);
        esp_sleep_enable_timer_wakeup 5000000;
        mesh_setDebugMsgTypes; mesh_init; mesh_onReceive; mesh_onNewConnection;
        mesh_onChangedConnections; mesh_onNodeTimeAdjusted;
        userScheduler_addTask; taskSendMessage_enable] /\
     Node1.rtc s1 = clock_after now warm) /\
  (exists s2,
     Node2.setup wifi now warm = Returns s2 /\
     Node2.trace s2
     = [pinMode_OUTPUT 13; pinMode_OUTPUT 12; pinMode_OUTPUT 14;
        configTime; getLocalTime (obtained now);
        esp_sleep_enable_timer_wakeup 5100000;
        mesh_setDebugMsgTypes; mesh_init; mesh_onReceive; mesh_onNewConnection;
        mesh_onChangedConnections; mesh_onNodeTimeAdjusted;
        userScheduler_addTask] /\
     Node2.rtc s2 = clock_after now warm) /\
  clock_after None warm = warm /\
  (forall polls,
     exists s1,
       Node1.setup (Some polls) now unsynced = Returns s1 /\
       Node1.trace s1
       = [dht_begin; WiFi_begin] ++ wait_connected polls ++
         [configTime; getLocalTime (obtained now); WiFi_disconnect; WiFi_mode_OFF;
          esp_sleep_enable_timer_wakeup 5000000;
          mesh_setDebugMsgTypes; mesh_init; mesh_onReceive; mesh_onNewConnection;
          mesh_onChangedConnections; mesh_onNodeTimeAdjusted;
          userScheduler_addTask; taskSendMessage_enable] /\
       Node1.rtc s1 = clock_after now unsynced) /\
  (forall polls,
     exists s2,
       Node2.setup (Some polls) now unsynced = Returns s2 /\
       Node2.trace s2
       = [pinMode_OUTPUT 13; pinMode_OUTPUT 12; pinMode_OUTPUT 14; WiFi_begin] ++
         wait_connected polls ++
         [configTime; getLocalTime (obtained now); WiFi_disconnect; WiFi_mode_OFF;
          esp_sleep_enable_timer_wakeup 5100000;
          mesh_setDebugMsgTypes; mesh_init; mesh_onReceive; mesh_onNewConnection;
          mesh_onChangedConnections; mesh_onNodeTimeAdjusted;
          userScheduler_addTask] /\
       Node2.rtc s2 = clock_after now unsynced) /\
  Node1.setup None now unsynced = Blocked [dht_begin; WiFi_begin] /\
  Node2.setup None now unsynced
  = Blocked [pinMode_OUTPUT 13; pinMode_OUTPUT 12; pinMode_OUTPUT 14; WiFi_begin].
Proof.
  intros warm unsynced.
  split; [apply Node1_setup_WiFi | ].
  split; [apply Node2_setup_WiFi | ].
  split; [eexists; split; [reflexivity | destruct now; split; reflexivity] | ].
  split; [eexists; split; [reflexivity | destruct now; split; reflexivity] | ].
  split; [reflexivity | ].
  split.
  - intros polls. eexists. split; [reflexivity | ].
    destruct now; cbn; rewrite <- !app_assoc; split; reflexivity.
  - split; [ | split; reflexivity].
    intros polls. eexists. split; [reflexivity | ].
    destruct now; cbn; rewrite <- !app_assoc; split; reflexivity.
Qed.

(** C5 with a warm boot that only reads the clock back fails: a boot
    with the flag true, the clock at 09:15:42 and [getLocalTime]
    answering 10:00:05 asks for the time and leaves the clock at
    10:00:05, in both sketches. *)
Lemma warm_boot_overwrites_clock :
  let warm := {| hour := "09"; minut := "15"; sec := "42"; yettimed := true |} in
  let now := Some {| tm_hour := 10; tm_min := 0; tm_sec := 5 |} in
  let s1 := returned (Node1.boot warm) (Node1.setup None now warm) in
  let s2 := returned (Node2.boot warm) (Node2.setup None now warm) in
  Node1.setup None now warm = Returns s1 /\
  Node2.setup None now warm = Returns s2 /\
  In configTime (Node1.trace s1) /\ In (getLocalTime true) (Node1.trace s1) /\
  In configTime (Node2.trace s2) /\ In (getLocalTime true) (Node2.trace s2) /\
  Node1.rtc s1 = {| hour := "10"; minut := "00"; sec := "05"; yettimed := true |} /\
  Node2.rtc s2 = {| hour := "10"; minut := "00"; sec := "05"; yettimed := true |} /\
  Node1.rtc s1 <> warm /\ Node2.rtc s2 <> warm.
Proof.
  cbv zeta. repeat split; try reflexivity; try discriminate;
    cbn; intuition congruence.
Qed.

(** ** What the receive handlers decode *)

(** C3, evaluated.  The actuator node decodes from every Reading the
    sensor node encodes the node number, the temperature and the humidity
    that were written, and 0 for the hour, the minute and the second,
    whatever texts were written for them; the sensor node decodes from
    every Decision the actuator node encodes the node number and the
    colour, and 0 for the hour, the minute and the second. *)
Theorem decode_of_encoded
    (now : option tm) (humidity temperature : float) (s1 : Node1.state)
    (now' : option tm) (s2 : Node2.state) :
  let reading := fst (Node1.getReadings now humidity temperature s1) in
  let decision := fst (Node2.getReadings now' s2) in
  get "hour" (parse reading) = Str (hour (clock_after now (Node1.rtc s1))) /\
  get "hour" (parse decision) = Str (hour (clock_after now' (Node2.rtc s2))) /\
  Node2.decode reading
  = ({| Node2.r_hour := 0; Node2.r_min := 0; Node2.r_sec := 0 |},
     (1, float_to_double temperature, float_to_double humidity)) /\
  Node1.decode decision
  = {| Node1.r_hour := 0; Node1.r_min := 0; Node1.r_sec := 0;
       Node1.r_node := 2; Node1.r_color := Node2.Color s2 |}.
Proof.
  intros reading decision. subst reading decision.
  rewrite Node1_getReadings_text, Node2_getReadings_text.
  repeat split.
Qed.

(** The Reading stamped 14:30:00: the hour written is the text 14, the
    hour decoded is the number 0. *)
Lemma decode_of_encoded_at_14_30_00 :
  let stamp := {| hour := "14"; minut := "30"; sec := "00"; yettimed := true |} in
  let reading := fst (Node1.getReadings None (float_of_int 40) (float_of_int 25)
                        (Node1.boot stamp)) in
  get "hour" (parse reading) = Str "14" /\
  get "min" (parse reading) = Str "30" /\
  Node2.r_hour (fst (Node2.decode reading)) = 0 /\
  Node2.r_min (fst (Node2.decode reading)) = 0 /\
  Node2.r_sec (fst (Node2.decode reading)) = 0.
Proof. cbv zeta. repeat split. Qed.

(** C4.  Decoding is total.  A key the text does not have converts to 0,
    to 0.0 and to the empty text.  The receive handler of the actuator
    node stores what the conversions give, whatever the text is, decides
    a colour on it, drives the LED and enables the task; on a text
    without the [temp] key it stores the temperature 0.0 and decides
    Green. *)
Theorem decode_absent_defaults
    (from : Z) (msg : Text) (s : Node2.state) (key : string) :
  has key msg = false ->
  let s' := Node2.receivedCallback from msg s in
  (to_int (get key (parse msg)) = 0 /\
   to_double (get key (parse msg)) = S754_zero false /\
   to_String (get key (parse msg)) = EmptyString) /\
  (Node2.node s' = to_int (get "node" (parse msg)) /\
   Node2.temp s' = to_double (get "temp" (parse msg)) /\
   Node2.hum s' = to_double (get "hum" (parse msg))) /\
  (forall ms k v,
     parse msg = Object ms -> lookup k ms = Some v -> get k (parse msg) = v) /\
  (key = "temp"%string ->
   Node2.temp s' = S754_zero false /\ Node2.Color s' = "Green"%string) /\
  Node2.taskEnabled s' = true /\
  Node2.trace s'
  = Node2.trace s ++ indicator (Node2.Color s') ++ [taskSendMessage_enable].
Proof.
  intros Habs s'.
  pose proof (get_absent key msg Habs) as Hnull.
  pose proof (Node2_receivedCallback_effect from msg s) as (Ht & _ & He & _).
  fold s' in Ht, He.
  assert (Hfields : Node2.node s' = to_int (get "node" (parse msg)) /\
                    Node2.temp s' = to_double (get "temp" (parse msg)) /\
                    Node2.hum s' = to_double (get "hum" (parse msg))).
  { subst s'. unfold Node2.receivedCallback, Node2.decode, Node2.condition.
    destruct (float_gt _ _); repeat split. }
  split; [rewrite Hnull; repeat split | ].
  split; [exact Hfields | ].
  split.
  - intros ms k v Hp Hl. unfold get. rewrite Hp, Hl. reflexivity.
  - split; [ | split; assumption].
    intros ->. destruct Hfields as (_ & Htemp & _).
    split; [rewrite Htemp, Hnull; reflexivity | ].
    subst s'. rewrite receivedCallback_Color, Hnull. reflexivity.
Qed.

(** A text with the node number and the humidity, and no temperature. *)
Lemma decode_absent_defaults_witness :
  let msg := Object [("node"%string, Int 1);
                     ("hum"%string, Double (double_of_int 40))] in
  let s' := Node2.receivedCallback 1 msg (Node2.boot cold) in
  Node2.node s' = 1 /\ Node2.temp s' = S754_zero false /\
  Node2.hum s' = double_of_int 40 /\ Node2.Color s' = "Green"%string /\
  Node2.taskEnabled s' = true.
Proof.
  intros msg s'.
  pose proof (decode_absent_defaults 1 msg (Node2.boot cold) "temp" eq_refl)
    as (_ & (Hn & Ht & Hh) & _ & Hc & He & _).
  fold s' in Hn, Ht, Hh, Hc, He.
  destruct (Hc eq_refl) as (_ & Hg).
  repeat split; assumption.
Defined.

(** ** One round, end to end *)

(** The sensor node boots without a synchronised clock, the time is
    obtained at 14:30:00, the sensor answers 25 degrees and 40 percent:
    the Reading has node 1, these two values and the stamp 14, 30, 00. *)
Example round_reading :
  let now := Some {| tm_hour := 14; tm_min := 30; tm_sec := 0 |} in
  let s0 := returned (Node1.boot cold) (Node1.setup (Some 3%nat) now cold) in
  sent (Node1.trace (Node1.loop [Node1.TaskDue now (float_of_int 40) (float_of_int 25)] s0))
  = [Object [("node"%string, Int 1);
             ("temp"%string, Double (double_of_int 25));
             ("hum"%string, Double (double_of_int 40));
             ("hour"%string, Str "14"); ("min"%string, Str "30");
             ("sec"%string, Str "00")]].
Proof. vm_compute. reflexivity. Qed.

(** The actuator node receives that Reading: it drives the LED to green,
    broadcasts the Decision Green stamped 14, 30, 00 and sleeps.  On 31.5
    degrees the Decision is Red. *)
Example round_decision :
  let now := Some {| tm_hour := 14; tm_min := 30; tm_sec := 0 |} in
  let s0 := returned (Node2.boot cold) (Node2.setup (Some 3%nat) now cold) in
  let reading t := Reading t (float_of_int 40) (clock_after now cold) in
  let run t := Node2.loop [Node2.Receive 1 (reading t); Node2.TaskDue now] s0 in
  sent (Node2.trace (run (float_of_int 25)))
  = [Object [("node"%string, Int 2); ("color"%string, Str "Green");
             ("hour"%string, Str "14"); ("min"%string, Str "30");
             ("sec"%string, Str "00")]] /\
  Node2.asleep (run (float_of_int 25)) = true /\
  In (analogWrite Node2.greenPin 255) (Node2.trace (run (float_of_int 25))) /\
  Node2.Color (run (double_to_float (double_of_ratio 315 10))) = "Red"%string.
Proof. vm_compute. intuition. Qed.

(** * Further properties of the two sketches *)

Lemma Node1_setup_sent (wifi : option nat) (now : option tm) (r : RTC) (s0 : Node1.state) :
  Node1.setup wifi now r = Returns s0 -> sent (Node1.trace s0) = [].
Proof.
  unfold Node1.setup. cbn [Node1.rtc Node1.call Node1.boot].
  destruct (yettimed r); cbn [negb].
  - destruct now; cbn; intros H; injection H as <-; reflexivity.
  - destruct wifi as [polls | ]; [ | discriminate].
    destruct now; cbn; intros H; injection H as <-; cbn;
      rewrite ?sent_app, ?wait_connected_no_sent; reflexivity.
Qed.

Lemma Node1_loop_sent (es : list Node1.event) (s : Node1.state) :
  Node1.asleep s = false -> Node1.taskEnabled s = true ->
  List.length (sent (Node1.trace (Node1.loop es s)))
  = (List.length (sent (Node1.trace s)) + due_before_receive es)%nat.
Proof.
  revert s. induction es as [ | e es IH]; intros s Ha Ht; [cbn; lia | ].
  rewrite Node1_loop_cons. unfold Node1.update. rewrite Ha.
  destruct e as [from msg | now h t].
  - rewrite Node1_loop_asleep by reflexivity.
    cbn. rewrite <- app_assoc, sent_app. cbn. rewrite app_nil_r. lia.
  - rewrite Ht.
    pose proof (Node1_sendMessage_frame now h t s) as (Fa & Ft & _).
    rewrite IH by congruence.
    destruct (Node1_sendMessage_effect now h t s) as (-> & _).
    rewrite sent_app, length_app. cbn. lia.
Qed.

(** X1.  In a run of [loop] after [setup] has returned, the sensor node
    has broadcast as many Readings as the task ran before the first
    message was received: one at each run, and none once a message has
    come. *)
Theorem sensor_broadcasts_until_received
    (wifi : option nat) (now : option tm) (r : RTC) (s0 : Node1.state)
    (es : list Node1.event) :
  Node1.setup wifi now r = Returns s0 ->
  List.length (sent (Node1.trace (Node1.loop es s0))) = due_before_receive es.
Proof.
  intros H. pose proof (Node1_setup_sent _ _ _ _ H) as Hs.
  apply Node1_setup_returns in H. destruct H as (Ha & Ht & _).
  rewrite Node1_loop_sent, Hs by assumption. reflexivity.
Qed.

(** X2.  The task of the actuator node starts disabled: as long as no
    message is received, task runs change nothing; the node sends
    nothing, drives no pin and does not sleep. *)
Theorem actuator_idle_without_message
    (wifi : option nat) (now : option tm) (r : RTC) (s0 : Node2.state)
    (es : list Node2.event) :
  Node2.setup wifi now r = Returns s0 ->
  forallb is_TaskDue es = true ->
  Node2.loop es s0 = s0.
Proof.
  intros H Hes. apply Node2_setup_returns in H. destruct H as (Ha & Ht & _).
  induction es as [ | e es IH]; [reflexivity | ].
  cbn [forallb] in Hes. apply andb_prop in Hes. destruct Hes as [He Hes].
  rewrite Node2_loop_cons. unfold Node2.update. rewrite Ha.
  destruct e as [from msg | now']; [discriminate | ].
  rewrite Ht. apply IH, Hes.
Qed.

Lemma Node2_loop_receives (es : list Node2.event) (s : Node2.state) :
  Node2.asleep s = false ->
  forallb (fun e => negb (is_TaskDue e)) es = true ->
  Node2.asleep (Node2.loop es s) = false /\
  Node2.rtc (Node2.loop es s) = Node2.rtc s /\
  sent (Node2.trace (Node2.loop es s)) = sent (Node2.trace s).
Proof.
  revert s. induction es as [ | e es IH]; intros s Ha Hes; [repeat split; exact Ha | ].
  cbn [forallb] in Hes. apply andb_prop in Hes. destruct Hes as [He Hes].
  rewrite Node2_loop_cons. unfold Node2.update. rewrite Ha.
  destruct e as [from msg | now]; [ | discriminate].
  pose proof (Node2_receivedCallback_effect from msg s) as (Ht & Hc & _ & Hs & Hr).
  cbv zeta in Ht, Hc, Hs, Hr.
  destruct (IH (Node2.receivedCallback from msg s)) as (Ia & Ir & Is);
    [congruence | exact Hes | ].
  split; [exact Ia | split; [congruence | ]].
  rewrite Is, Ht, sent_app.
  destruct Hc as [-> | ->]; cbn; rewrite app_nil_r; reflexivity.
Qed.

Lemma Node2_answer_from
    (s0 : Node2.state) (es : list Node2.event) (from : Z) (msg : Text)
    (now : option tm) :
  Node2.asleep s0 = false ->
  sent (Node2.trace s0) = [] ->
  forallb (fun e => negb (is_TaskDue e)) es = true ->
  sent (Node2.trace (Node2.loop (es ++ [Node2.Receive from msg; Node2.TaskDue now]) s0))
  = [Decision (colour_of msg) (clock_after now (Node2.rtc s0))].
Proof.
  intros Ha Hn Hes.
  destruct (Node2_loop_receives es s0 Ha Hes) as (Ia & Ir & Is).
  rewrite Node2_loop_app. set (s := Node2.loop es s0) in *.
  rewrite 2 Node2_loop_cons. cbn [Node2.loop fold_left].
  unfold Node2.update at 2. rewrite Ia.
  pose proof (Node2_receivedCallback_effect from msg s) as (Ht & _ & He & Hs & Hr).
  cbv zeta in Ht, He, Hs, Hr.
  unfold Node2.update. rewrite Hs, Ia, He.
  pose proof (Node2_sendMessage_effect now (Node2.receivedCallback from msg s))
    as (Ht2 & Hh & Hm & Hc & _).
  cbv zeta in Ht2, Hh, Hm, Hc.
  rewrite Ht2, sent_app, Ht, sent_app, Is, Hn.
  rewrite receivedCallback_Color. fold (colour_of msg).
  assert (Hclock : Node2.rtc (Node2.printLocalTime now (Node2.receivedCallback from msg s))
                   = clock_after now (Node2.rtc s0)).
  { rewrite <- Ir, <- Hr. destruct now; reflexivity. }
  rewrite Hclock in Hh, Hm, Hc.
  assert (Hdec : forall c a b, hour a = hour b -> minut a = minut b -> sec a = sec b ->
                               Decision c a = Decision c b)
    by (intros c a b E1 E2 E3; unfold Decision; rewrite E1, E2, E3; reflexivity).
  rewrite (Hdec _ _ _ Hh Hm Hc).
  unfold colour_of. destruct (float_gt _ _); reflexivity.
Qed.

(** X3.  When the actuator node receives several messages before the
    task runs, it broadcasts one Decision, with the colour decided on the
    last one and the clock as [printLocalTime] leaves it at the send. *)
Theorem actuator_reports_last_reading
    (wifi : option nat) (now0 : option tm) (r : RTC) (s0 : Node2.state)
    (es : list Node2.event) (from : Z) (msg : Text) (now : option tm) :
  Node2.setup wifi now0 r = Returns s0 ->
  forallb (fun e => negb (is_TaskDue e)) es = true ->
  sent (Node2.trace (Node2.loop (es ++ [Node2.Receive from msg; Node2.TaskDue now]) s0))
  = [Decision (colour_of msg) (clock_after now (clock_after now0 r))].
Proof.
  intros H Hes.
  assert (Hr0 : Node2.rtc s0 = clock_after now0 r).
  { revert H. unfold Node2.setup. cbn [Node2.rtc Node2.call Node2.boot].
    destruct (yettimed r) eqn:Ey; cbn [negb].
    - destruct now0; cbn; intros H; injection H as <-; cbn; rewrite ?Ey;
        destruct r; cbn in *; subst; reflexivity.
    - destruct wifi as [polls | ]; [ | discriminate].
      destruct now0; cbn; intros H; injection H as <-; cbn; rewrite ?Ey;
        destruct r; cbn in *; subst; reflexivity. }
  pose proof (Node2_setup_returns _ _ _ _ H) as (Ha & _ & (_ & Hn & _)).
  rewrite Ha in Hn. apply length_zero_iff_nil in Hn.
  rewrite (Node2_answer_from s0 es from msg now Ha Hn Hes), Hr0. reflexivity.
Qed.

Lemma Node1_update_extends (s : Node1.state) (e : Node1.event) :
  exists later, Node1.trace (Node1.update s e) = Node1.trace s ++ later /\ armed later = [].
Proof.
  unfold Node1.update. destruct (Node1.asleep s).
  - exists []. rewrite app_nil_r. split; reflexivity.
  - destruct e as [from msg | now h t].
    + eexists. split; [cbn; rewrite <- app_assoc; reflexivity | reflexivity].
    + destruct (Node1.taskEnabled s).
      * eexists. split; [apply Node1_sendMessage_effect | reflexivity].
      * exists []. rewrite app_nil_r. split; reflexivity.
Qed.

Lemma Node1_loop_extends (es : list Node1.event) (s : Node1.state) :
  exists later, Node1.trace (Node1.loop es s) = Node1.trace s ++ later /\ armed later = [].
Proof.
  revert s. induction es as [ | e es IH]; intros s.
  - exists []. rewrite app_nil_r. split; reflexivity.
  - rewrite Node1_loop_cons.
    destruct (Node1_update_extends s e) as (l1 & H1 & A1).
    destruct (IH (Node1.update s e)) as (l2 & H2 & A2).
    exists (l1 ++ l2). rewrite H2, H1, app_assoc, armed_app, A1, A2. split; reflexivity.
Qed.

Lemma Node2_update_extends (s : Node2.state) (e : Node2.event) :
  exists later, Node2.trace (Node2.update s e) = Node2.trace s ++ later /\ armed later = [].
Proof.
  unfold Node2.update. destruct (Node2.asleep s).
  - exists []. rewrite app_nil_r. split; reflexivity.
  - destruct e as [from msg | now].
    + eexists. split; [apply Node2_receivedCallback_effect | ].
      destruct (Node2_receivedCallback_effect from msg s) as (_ & [-> | ->] & _);
        reflexivity.
    + destruct (Node2.taskEnabled s).
      * eexists. split; [apply Node2_sendMessage_effect | reflexivity].
      * exists []. rewrite app_nil_r. split; reflexivity.
Qed.

Lemma Node2_loop_extends (es : list Node2.event) (s : Node2.state) :
  exists later, Node2.trace (Node2.loop es s) = Node2.trace s ++ later /\ armed later = [].
Proof.
  revert s. induction es as [ | e es IH]; intros s.
  - exists []. rewrite app_nil_r. split; reflexivity.
  - rewrite Node2_loop_cons.
    destruct (Node2_update_extends s e) as (l1 & H1 & A1).
    destruct (IH (Node2.update s e)) as (l2 & H2 & A2).
    exists (l1 ++ l2). rewrite H2, H1, app_assoc, armed_app, A1, A2. split; reflexivity.
Qed.

(** X4.  In both sketches the wake timer is armed once, in [setup],
    before any deep sleep: whatever the run of [loop], its calls come after
    those of [setup], none of them arms the timer again, and [setup] has
    armed it with 5 000 000 (sensor) or 5 100 000 (actuator) microseconds
    and has not slept. *)
Theorem wake_timer_armed_before_sleep
    (wifi1 wifi2 : option nat) (now1 now2 : option tm) (r1 r2 : RTC)
    (s1 : Node1.state) (s2 : Node2.state)
    (es1 : list Node1.event) (es2 : list Node2.event) :
  Node1.setup wifi1 now1 r1 = Returns s1 ->
  Node2.setup wifi2 now2 r2 = Returns s2 ->
  (exists later,
     Node1.trace (Node1.loop es1 s1) = Node1.trace s1 ++ later /\
     armed (Node1.trace s1) = [5000000] /\ armed later = [] /\
     existsb is_sleep (Node1.trace s1) = false) /\
  (exists later,
     Node2.trace (Node2.loop es2 s2) = Node2.trace s2 ++ later /\
     armed (Node2.trace s2) = [5100000] /\ armed later = [] /\
     existsb is_sleep (Node2.trace s2) = false).
Proof.
  intros H1 H2. split.
  - destruct (Node1_loop_extends es1 s1) as (later & Ht & Ha).
    exists later. split; [exact Ht | ].
    pose proof (Node1_setup_armed wifi1 now1 r1) as Harm. rewrite H1 in Harm.
    split; [exact Harm | split; [exact Ha | ]].
    apply (Node1_setup_returns _ _ _ _ H1).
  - destruct (Node2_loop_extends es2 s2) as (later & Ht & Ha).
    exists later. split; [exact Ht | ].
    pose proof (Node2_setup_armed wifi2 now2 r2) as Harm. rewrite H2 in Harm.
    split; [exact Harm | split; [exact Ha | ]].
    destruct (Node2_setup_returns _ _ _ _ H2) as (Hs & _ & (Hz & _)).
    rewrite Hz. exact Hs.
Qed.

Lemma Node1_update_flag (s : Node1.state) (e : Node1.event) :
  yettimed (Node1.rtc s) = true -> yettimed (Node1.rtc (Node1.update s e)) = true.
Proof.
  intros H. unfold Node1.update. destruct (Node1.asleep s); [exact H | ].
  destruct e as [from msg | now h t]; [reflexivity | ].
  destruct (Node1.taskEnabled s); [ | exact H].
  destruct (Node1_sendMessage_frame now h t s) as (_ & _ & -> & _). exact H.
Qed.

Lemma Node2_update_flag (s : Node2.state) (e : Node2.event) :
  yettimed (Node2.rtc s) = true -> yettimed (Node2.rtc (Node2.update s e)) = true.
Proof.
  intros H. unfold Node2.update. destruct (Node2.asleep s); [exact H | ].
  destruct e as [from msg | now].
  - destruct (Node2_receivedCallback_effect from msg s) as (_ & _ & _ & _ & ->). exact H.
  - destruct (Node2.taskEnabled s); [ | exact H]. apply Node2_sendMessage_effect.
Qed.

Lemma Node1_setup_clock (wifi : option nat) (now : option tm) (r : RTC) (s0 : Node1.state) :
  Node1.setup wifi now r = Returns s0 -> Node1.rtc s0 = clock_after now r.
Proof.
  unfold Node1.setup. cbn [Node1.rtc Node1.call Node1.boot].
  destruct (yettimed r) eqn:Ey; cbn [negb].
  - destruct now; cbn; intros H; injection H as <-; cbn; rewrite ?Ey;
      destruct r; cbn in *; subst; reflexivity.
  - destruct wifi as [polls | ]; [ | discriminate].
    destruct now; cbn; intros H; injection H as <-; cbn; rewrite ?Ey;
      destruct r; cbn in *; subst; reflexivity.
Qed.

Lemma Node2_setup_clock (wifi : option nat) (now : option tm) (r : RTC) (s0 : Node2.state) :
  Node2.setup wifi now r = Returns s0 -> Node2.rtc s0 = clock_after now r.
Proof.
  unfold Node2.setup. cbn [Node2.rtc Node2.call Node2.boot].
  destruct (yettimed r) eqn:Ey; cbn [negb].
  - destruct now; cbn; intros H; injection H as <-; cbn; rewrite ?Ey;
      destruct r; cbn in *; subst; reflexivity.
  - destruct wifi as [polls | ]; [ | discriminate].
    destruct now; cbn; intros H; injection H as <-; cbn; rewrite ?Ey;
      destruct r; cbn in *; subst; reflexivity.
Qed.

Lemma Node1_setup_blocked (wifi : option nat) (now : option tm) (r : RTC) :
  (exists done, Node1.setup wifi now r = Blocked done) <->
  yettimed r = false /\ wifi = None.
Proof.
  unfold Node1.setup. cbn [Node1.rtc Node1.call Node1.boot].
  destruct (yettimed r); cbn [negb].
  - destruct now; cbn; (split; [intros (d & H) | intros (H & _)]); discriminate.
  - destruct wifi as [polls | ].
    + destruct now; cbn; (split; [intros (d & H) | intros (_ & H)]); discriminate.
    + cbn. split; [intros _; split; reflexivity | intros _; eexists; reflexivity].
Qed.

Lemma Node2_setup_blocked (wifi : option nat) (now : option tm) (r : RTC) :
  (exists done, Node2.setup wifi now r = Blocked done) <->
  yettimed r = false /\ wifi = None.
Proof.
  unfold Node2.setup. cbn [Node2.rtc Node2.call Node2.boot].
  destruct (yettimed r); cbn [negb].
  - destruct now; cbn; (split; [intros (d & H) | intros (H & _)]); discriminate.
  - destruct wifi as [polls | ].
    + destruct now; cbn; (split; [intros (d & H) | intros (_ & H)]); discriminate.
    + cbn. split; [intros _; split; reflexivity | intros _; eexists; reflexivity].
Qed.

Lemma delayed_app (a b : list Action) : delayed (a ++ b) = delayed a + delayed b.
Proof.
  unfold delayed. induction a as [ | x a IH]; [reflexivity | ].
  cbn [app fold_right]. rewrite IH. destruct x; lia.
Qed.

Lemma wait_connected_delayed (polls : nat) :
  delayed (wait_connected polls) = 500 * Z.of_nat polls.
Proof.
  induction polls as [ | n IH]; [reflexivity | ].
  cbn [wait_connected]. change (delayed (WiFi_status false :: delay 500 :: wait_connected n))
    with (500 + delayed (wait_connected n)). rewrite IH. lia.
Qed.

(** X6.  In both sketches [setup] fails to return exactly when the flag
    is false and the WiFi link never comes up.  When the link comes up
    after [polls] failed polls, [setup] has waited 500 ms for each of them
    if the flag was false, and has not waited at all if it was true. *)
Theorem setup_blocks_only_without_link
    (wifi : option nat) (now : option tm) (r : RTC) (polls : nat) :
  ((exists done, Node1.setup wifi now r = Blocked done) <->
   yettimed r = false /\ wifi = None) /\
  ((exists done, Node2.setup wifi now r = Blocked done) <->
   yettimed r = false /\ wifi = None) /\
  delayed (done_by Node1.trace (Node1.setup (Some polls) now r))
  = (if yettimed r then 0 else 500 * Z.of_nat polls) /\
  delayed (done_by Node2.trace (Node2.setup (Some polls) now r))
  = (if yettimed r then 0 else 500 * Z.of_nat polls).
Proof.
  split; [apply Node1_setup_blocked | ].
  split; [apply Node2_setup_blocked | ].
  split.
  - unfold Node1.setup. cbn [Node1.rtc Node1.call Node1.boot].
    destruct (yettimed r); cbn [negb].
    + destruct now; reflexivity.
    + destruct now; cbn; rewrite !delayed_app, wait_connected_delayed; cbn; lia.
  - unfold Node2.setup. cbn [Node2.rtc Node2.call Node2.boot].
    destruct (yettimed r); cbn [negb].
    + destruct now; reflexivity.
    + destruct now; cbn; rewrite !delayed_app, wait_connected_delayed; cbn; lia.
Qed.

(** X5.  Nothing clears the flag: a boot with the flag set returns (it
    never waits for WiFi) and the flag is still set after any run of
    [loop], in both sketches. *)
Theorem flag_never_cleared
    (wifi : option nat) (now : option tm) (r : RTC)
    (es1 : list Node1.event) (es2 : list Node2.event) :
  yettimed r = true ->
  exists s1 s2,
    Node1.setup wifi now r = Returns s1 /\
    Node2.setup wifi now r = Returns s2 /\
    yettimed (Node1.rtc (Node1.loop es1 s1)) = true /\
    yettimed (Node2.rtc (Node2.loop es2 s2)) = true.
Proof.
  intros Hr.
  assert (L1 : forall es s, yettimed (Node1.rtc s) = true ->
                            yettimed (Node1.rtc (Node1.loop es s)) = true).
  { induction es as [ | e es IH]; intros s H; [exact H | ].
    rewrite Node1_loop_cons. apply IH, Node1_update_flag, H. }
  assert (L2 : forall es s, yettimed (Node2.rtc s) = true ->
                            yettimed (Node2.rtc (Node2.loop es s)) = true).
  { induction es as [ | e es IH]; intros s H; [exact H | ].
    rewrite Node2_loop_cons. apply IH, Node2_update_flag, H. }
  destruct (Node1.setup wifi now r) as [s1 | d1] eqn:E1.
  2:{ exfalso. assert (Hb : exists done, Node1.setup wifi now r = Blocked done)
        by (eexists; exact E1).
      apply Node1_setup_blocked in Hb. destruct Hb as [Hb _]. congruence. }
  destruct (Node2.setup wifi now r) as [s2 | d2] eqn:E2.
  2:{ exfalso. assert (Hb : exists done, Node2.setup wifi now r = Blocked done)
        by (eexists; exact E2).
      apply Node2_setup_blocked in Hb. destruct Hb as [Hb _]. congruence. }
  exists s1, s2. split; [reflexivity | split; [reflexivity | ]].
  split; [apply L1; rewrite (Node1_setup_clock _ _ _ _ E1)
         | apply L2; rewrite (Node2_setup_clock _ _ _ _ E2)];
    destruct now; exact Hr.
Qed.

Lemma Node1_update_stale (s : Node1.state) (e : Node1.event) :
  time_fails1 e = true ->
  hour (Node1.rtc (Node1.update s e)) = hour (Node1.rtc s) /\
  minut (Node1.rtc (Node1.update s e)) = minut (Node1.rtc s) /\
  sec (Node1.rtc (Node1.update s e)) = sec (Node1.rtc s).
Proof.
  intros H. unfold Node1.update. destruct (Node1.asleep s); [repeat split | ].
  destruct e as [from msg | now h t]; [repeat split | ].
  destruct (Node1.taskEnabled s); [ | repeat split].
  destruct now; [discriminate | repeat split].
Qed.

Lemma Node2_update_stale (s : Node2.state) (e : Node2.event) :
  time_fails2 e = true ->
  hour (Node2.rtc (Node2.update s e)) = hour (Node2.rtc s) /\
  minut (Node2.rtc (Node2.update s e)) = minut (Node2.rtc s) /\
  sec (Node2.rtc (Node2.update s e)) = sec (Node2.rtc s).
Proof.
  intros H. unfold Node2.update. destruct (Node2.asleep s); [repeat split | ].
  destruct e as [from msg | now].
  - destruct (Node2_receivedCallback_effect from msg s) as (_ & _ & _ & _ & ->).
    repeat split.
  - destruct (Node2.taskEnabled s); [ | repeat split].
    destruct now; [discriminate | repeat split].
Qed.

(** X11.  In both sketches, over a run of [loop] in which [getLocalTime]
    fails at every task run, the hour, the minute and the second kept in
    RTC memory stay as they were, whatever messages are received. *)
Theorem clock_stays_while_time_fails
    (es1 : list Node1.event) (s1 : Node1.state)
    (es2 : list Node2.event) (s2 : Node2.state) :
  forallb time_fails1 es1 = true ->
  forallb time_fails2 es2 = true ->
  (hour (Node1.rtc (Node1.loop es1 s1)) = hour (Node1.rtc s1) /\
   minut (Node1.rtc (Node1.loop es1 s1)) = minut (Node1.rtc s1) /\
   sec (Node1.rtc (Node1.loop es1 s1)) = sec (Node1.rtc s1)) /\
  (hour (Node2.rtc (Node2.loop es2 s2)) = hour (Node2.rtc s2) /\
   minut (Node2.rtc (Node2.loop es2 s2)) = minut (Node2.rtc s2) /\
   sec (Node2.rtc (Node2.loop es2 s2)) = sec (Node2.rtc s2)).
Proof.
  intros H1 H2. split.
  - revert s1. induction es1 as [ | e es IH]; intros s; [repeat split | ].
    cbn [forallb] in H1. apply andb_prop in H1. destruct H1 as [He Hes].
    rewrite Node1_loop_cons.
    destruct (Node1_update_stale s e He) as (A & B & C).
    destruct (IH Hes (Node1.update s e)) as (A' & B' & C').
    repeat split; congruence.
  - revert s2. induction es2 as [ | e es IH]; intros s; [repeat split | ].
    cbn [forallb] in H2. apply andb_prop in H2. destruct H2 as [He Hes].
    rewrite Node2_loop_cons.
    destruct (Node2_update_stale s e He) as (A & B & C).
    destruct (IH Hes (Node2.update s e)) as (A' & B' & C').
    repeat split; congruence.
Qed.

Lemma last_write_app (pin : Z) (a b : list Action) :
  last_write pin (a ++ b)
  = match last_write pin b with Some v => Some v | None => last_write pin a end.
Proof.
  induction a as [ | x a IH]; cbn [app last_write].
  - destruct (last_write pin b); reflexivity.
  - rewrite IH. destruct (last_write pin b); reflexivity.
Qed.

Lemma wait_connected_no_write (pin : Z) (polls : nat) :
  last_write pin (wait_connected polls) = None.
Proof.
  induction polls as [ | n IH]; [reflexivity | ].
  cbn [wait_connected last_write]. rewrite IH. reflexivity.
Qed.

Lemma Node2_receivedCallback_LED (from : Z) (msg : Text) (s : Node2.state) :
  LED_shows (Node2.Color (Node2.receivedCallback from msg s))
            (Node2.trace (Node2.receivedCallback from msg s)).
Proof.
  destruct (Node2_receivedCallback_effect from msg s) as (Ht & Hc & _).
  cbv zeta in Ht, Hc. rewrite Ht. unfold LED_shows.
  rewrite !last_write_app.
  destruct Hc as [-> | ->]; cbn; [split; [reflexivity | left] | split; [reflexivity | right]];
    repeat split.
Qed.

Lemma Node2_update_LED (s : Node2.state) (e : Node2.event) :
  LED_invariant s -> LED_invariant (Node2.update s e).
Proof.
  unfold Node2.update, LED_invariant at 1.
  destruct (Node2.asleep s) eqn:Ha.
  - intros H. unfold LED_invariant. rewrite Ha. exact H.
  - intros (Hs & Hled). destruct e as [from msg | now].
    + destruct (Node2_receivedCallback_effect from msg s) as (Ht & Hc & He & Hz & _).
      cbv zeta in Ht, Hc, He, Hz. unfold LED_invariant. rewrite Hz, Ha, He.
      split; [ | apply Node2_receivedCallback_LED].
      rewrite Ht, sent_app, Hs. destruct Hc as [-> | ->]; reflexivity.
    + destruct (Node2.taskEnabled s) eqn:Et.
      * destruct (Node2_sendMessage_effect now s) as (Ht & _ & _ & _ & _ & _ & Hz).
        cbv zeta in Ht, Hz. unfold LED_invariant. rewrite Hz.
        assert (Hc : Node2.Color (Node2.sendMessage now s) = Node2.Color s)
          by (destruct now; reflexivity).
        rewrite Hc, Ht. split.
        -- destruct Hled as (Hb & Hrg). unfold LED_shows. rewrite !last_write_app.
           cbn. exact (conj Hb Hrg).
        -- eexists. rewrite sent_app, Hs. reflexivity.
      * unfold LED_invariant. rewrite Ha, Et. exact (conj Hs Hled).
Qed.

Lemma Node2_setup_LED (wifi : option nat) (now : option tm) (r : RTC) (s0 : Node2.state) :
  Node2.setup wifi now r = Returns s0 -> LED_invariant s0.
Proof.
  intros H.
  destruct (Node2_setup_returns _ _ _ _ H) as (Ha & Ht & (_ & Hn & _)).
  unfold LED_invariant. rewrite Ha, Ht. rewrite Ha in Hn.
  split; [apply length_zero_iff_nil, Hn | ].
  revert H. unfold Node2.setup, LED_untouched. cbn [Node2.rtc Node2.call Node2.boot].
  destruct (yettimed r); cbn [negb].
  - destruct now; cbn; intros H; injection H as <-; cbn; repeat split.
  - destruct wifi as [polls | ]; [ | discriminate].
    destruct now; cbn; intros H; injection H as <-; cbn;
      rewrite !last_write_app, !wait_connected_no_write; cbn; repeat split.
Qed.

(** X10.  In every state of a wake cycle of the actuator node the LED
    pins are either untouched, with no colour decided, or driven as
    [setColor] drives them for the colour in [Color], blue off.  When the
    node is asleep the one Decision it broadcast carries that colour: the
    colour reported is the colour shown, and it is never empty. *)
Theorem LED_agrees_with_Decision
    (wifi : option nat) (now : option tm) (r : RTC) (s0 : Node2.state)
    (es : list Node2.event) :
  Node2.setup wifi now r = Returns s0 ->
  let s := Node2.loop es s0 in
  (LED_untouched (Node2.Color s) (Node2.trace s) \/
   LED_shows (Node2.Color s) (Node2.trace s)) /\
  (Node2.asleep s = true ->
   LED_shows (Node2.Color s) (Node2.trace s) /\
   exists r', sent (Node2.trace s) = [Decision (Node2.Color s) r']).
Proof.
  intros H s.
  assert (Hinv : LED_invariant s).
  { subst s. apply Node2_setup_LED in H. revert s0 H.
    induction es as [ | e es IH]; intros s0 H; [exact H | ].
    rewrite Node2_loop_cons. apply IH, Node2_update_LED, H. }
  unfold LED_invariant in Hinv. destruct (Node2.asleep s).
  - split; [right; apply Hinv | intros _; exact Hinv].
  - split; [ | discriminate].
    destruct Hinv as (_ & Hled). destruct (Node2.taskEnabled s); [right | left]; exact Hled.
Qed.

Lemma colour_of_Reading (t h : float) (r : RTC) :
  valid_float t = true ->
  colour_of (Reading t h r)
  = if float_gt t (float_of_int 29) then "Red"%string else "Green"%string.
Proof.
  intros Hv. unfold colour_of.
  change (to_double (get "temp" (parse (Reading t h r)))) with (float_to_double t).
  rewrite (float_double_float t Hv). reflexivity.
Qed.

(** X7.  From a Reading the sensor node encodes, the actuator node gets
    back exactly the [float] the sensor read (the widening of the encoder
    and the narrowing at the call of [condition] cancel), decides Red
    exactly when that temperature is above 29, and decides Green when the
    read failed with not-a-number. *)
Theorem reading_temperature_end_to_end
    (now : option tm) (humidity temperature : float) (s1 : Node1.state)
    (from : Z) (s2 : Node2.state) :
  valid_float temperature = true ->
  let decided t :=
    Node2.receivedCallback from (fst (Node1.getReadings now humidity t s1)) s2 in
  double_to_float (Node2.temp (decided temperature)) = temperature /\
  (Node2.Color (decided temperature) = "Red"%string <-> above 29 temperature) /\
  (Node2.Color (decided temperature) = "Green"%string <-> ~ above 29 temperature) /\
  Node2.Color (decided S754_nan) = "Green"%string.
Proof.
  intros Hv decided. subst decided. cbv beta.
  rewrite !receivedCallback_Color, !Node1_getReadings_text.
  fold (colour_of (Reading temperature humidity (clock_after now (Node1.rtc s1)))).
  rewrite (colour_of_Reading _ _ _ Hv).
  split.
  - unfold Node2.receivedCallback, Node2.decode, Node2.condition.
    destruct (float_gt _ _); cbn; apply (float_double_float _ Hv).
  - pose proof (float_gt_29 temperature Hv) as H29.
    destruct (float_gt temperature (float_of_int 29)).
    + split; [split; [intros _; apply H29; reflexivity | reflexivity] | ].
      split; [split; [discriminate | intros Hn; exfalso; apply Hn, H29; reflexivity] | ].
      reflexivity.
    + split; [split; [discriminate | intros Ha; apply H29 in Ha; discriminate] | ].
      split; [split; [intros _ Ha; apply H29 in Ha; discriminate | reflexivity] | ].
      reflexivity.
Qed.

Lemma digit_code (d : Z) :
  0 <= d <= 9 -> Ascii.nat_of_ascii (digit d) = (48 + Z.to_nat d)%nat.
Proof.
  intros H. unfold digit. apply Ascii.nat_ascii_embedding. lia.
Qed.

Lemma two_digits_stamps (n : Z) : 0 <= n < 100 -> stamps n (two_digits n).
Proof.
  intros H.
  assert (H1 : 0 <= n / 10 <= 9).
  { split; [apply Z.div_pos; lia | ].
    assert (n / 10 < 10) by (apply Z.div_lt_upper_bound; lia). lia. }
  assert (H2 : 0 <= n mod 10 <= 9) by (pose proof (Z.mod_pos_bound n 10); lia).
  unfold stamps, two_digits. split; [reflexivity | ].
  cbn [list_ascii_of_string forallb]. unfold is_decimal, decimal_value.
  cbn [list_ascii_of_string fold_left].
  rewrite !digit_code by assumption.
  split.
  - apply andb_true_intro. split; [ | apply andb_true_intro; split; [ | reflexivity]];
      apply andb_true_intro; split; apply Nat.leb_le; lia.
  - rewrite !Nat2Z.inj_add, !Z2Nat.id by lia.
    pose proof (Z.div_mod n 10). lia.
Qed.

(** X9.  After a successful [printLocalTime], in both sketches, each of
    the hour, the minute and the second kept in RTC memory is two
    characters, both decimal digits, that write the field of the time
    obtained: they fit the three-byte buffers and are zero padded. *)
Theorem stamp_is_two_decimal_digits
    (timeinfo : tm) (s1 : Node1.state) (s2 : Node2.state) :
  tm_ok timeinfo ->
  (stamps (tm_hour timeinfo) (hour (Node1.rtc (Node1.printLocalTime (Some timeinfo) s1))) /\
   stamps (tm_min timeinfo) (minut (Node1.rtc (Node1.printLocalTime (Some timeinfo) s1))) /\
   stamps (tm_sec timeinfo) (sec (Node1.rtc (Node1.printLocalTime (Some timeinfo) s1)))) /\
  (stamps (tm_hour timeinfo) (hour (Node2.rtc (Node2.printLocalTime (Some timeinfo) s2))) /\
   stamps (tm_min timeinfo) (minut (Node2.rtc (Node2.printLocalTime (Some timeinfo) s2))) /\
   stamps (tm_sec timeinfo) (sec (Node2.rtc (Node2.printLocalTime (Some timeinfo) s2)))).
Proof.
  intros (Hh & Hm & Hs).
  unfold Node1.printLocalTime, Node2.printLocalTime.
  cbn [Node1.rtc Node1.with_rtc Node1.call Node2.rtc Node2.with_rtc Node2.call
       hour minut sec].
  rewrite !strftime_02d_fits by lia.
  repeat split; apply two_digits_stamps; lia.
Qed.

Lemma Node1_receivedCallback_trace (from : Z) (msg : Text) (s : Node1.state) :
  Node1.trace (Node1.receivedCallback from msg s)
  = Node1.trace s ++ [taskSendMessage_disable; esp_deep_sleep_start].
Proof. cbn. rewrite <- app_assoc. reflexivity. Qed.

(** X8.  One round of the two nodes: the sensor node broadcasts its
    Reading, the actuator node receives it and broadcasts the Decision
    with the colour of the temperature, the sensor node receives the
    Decision.  Then both are asleep with the flag set, each has broadcast
    one message, and the next boot of either returns without any WiFi
    call. *)
Theorem one_round_then_warm_boots
    (wifi1 wifi2 wifi' : option nat) (now1 now2 nowA nowB now' : option tm)
    (r1 r2 : RTC) (s1 : Node1.state) (s2 : Node2.state)
    (humidity temperature : float) :
  Node1.setup wifi1 now1 r1 = Returns s1 ->
  Node2.setup wifi2 now2 r2 = Returns s2 ->
  valid_float temperature = true ->
  let reading := Reading temperature humidity (clock_after nowA (clock_after now1 r1)) in
  let decision :=
    Decision (if float_gt temperature (float_of_int 29) then "Red" else "Green")
             (clock_after nowB (clock_after now2 r2)) in
  let a := Node1.loop [Node1.TaskDue nowA humidity temperature] s1 in
  let b := Node2.loop [Node2.Receive 1 reading; Node2.TaskDue nowB] s2 in
  let c := Node1.loop [Node1.Receive 2 decision] a in
  sent (Node1.trace a) = [reading] /\
  sent (Node2.trace b) = [decision] /\
  sent (Node1.trace c) = [reading] /\
  Node2.asleep b = true /\ Node1.asleep c = true /\
  yettimed (Node2.rtc b) = true /\ yettimed (Node1.rtc c) = true /\
  (exists c', Node1.setup wifi' now' (Node1.rtc c) = Returns c' /\
              existsb is_WiFi (Node1.trace c') = false) /\
  (exists b', Node2.setup wifi' now' (Node2.rtc b) = Returns b' /\
              existsb is_WiFi (Node2.trace b') = false).
Proof.
  intros H1 H2 Hv reading decision a b c.
  pose proof (Node1_setup_returns _ _ _ _ H1) as (Ha1 & Ht1 & _ & _).
  pose proof (Node1_setup_sent _ _ _ _ H1) as Hs1.
  pose proof (Node1_setup_clock _ _ _ _ H1) as Hc1.
  assert (Ea : a = Node1.sendMessage nowA humidity temperature s1).
  { subst a. rewrite Node1_loop_cons. unfold Node1.update. rewrite Ha1, Ht1. reflexivity. }
  destruct (Node1_sendMessage_effect nowA humidity temperature s1) as (Hta & _).
  destruct (Node1_sendMessage_frame nowA humidity temperature s1) as (Haa & _).
  rewrite <- Ea in Hta, Haa. rewrite Hc1 in Hta. fold reading in Hta.
  assert (Hsa : sent (Node1.trace a) = [reading]).
  { rewrite Hta, sent_app, Hs1. reflexivity. }
  assert (Hsb : sent (Node2.trace b) = [decision]).
  { subst b decision.
    pose proof (Node2_setup_returns _ _ _ _ H2) as (Ha2 & _ & (_ & Hn2 & _)).
    rewrite Ha2 in Hn2. apply length_zero_iff_nil in Hn2.
    pose proof (Node2_answer_from s2 [] 1 reading nowB Ha2 Hn2 eq_refl) as Hans.
    cbn [app] in Hans. rewrite Hans, (Node2_setup_clock _ _ _ _ H2).
    unfold reading. rewrite (colour_of_Reading _ _ _ Hv). reflexivity. }
  assert (Hab : Node2.asleep b = true).
  { subst b. apply (Node2_loop_round [] [] []). }
  assert (Hfb : yettimed (Node2.rtc b) = true).
  { pose proof (Node2_setup_returns _ _ _ _ H2) as (_ & _ & Hinv).
    destruct (Node2_loop_invariant _ [Node2.Receive 1 reading; Node2.TaskDue nowB] s2 Hinv)
      as (_ & _ & Hy).
    fold b in Hy. rewrite Hy, Hab. apply orb_true_r. }
  assert (Ec : c = Node1.receivedCallback 2 decision a).
  { subst c. rewrite Node1_loop_cons. unfold Node1.update. rewrite Haa, Ha1. reflexivity. }
  assert (Hfc : yettimed (Node1.rtc c) = true) by (rewrite Ec; reflexivity).
  split; [exact Hsa | split; [exact Hsb | ]].
  split; [rewrite Ec, Node1_receivedCallback_trace, sent_app, Hsa; reflexivity | ].
  split; [exact Hab | split; [rewrite Ec; reflexivity | ]].
  split; [exact Hfb | split; [exact Hfc | ]].
  split.
  - pose proof (Node1_setup_WiFi wifi' now' (Node1.rtc c)) as Hw. rewrite Hfc in Hw.
    destruct (Node1.setup wifi' now' (Node1.rtc c)) as [c' | d] eqn:E.
    + exists c'. split; [reflexivity | exact Hw].
    + exfalso. assert (Hb : exists done, Node1.setup wifi' now' (Node1.rtc c) = Blocked done)
        by (eexists; exact E).
      apply Node1_setup_blocked in Hb. destruct Hb as [Hb _]. congruence.
  - pose proof (Node2_setup_WiFi wifi' now' (Node2.rtc b)) as Hw. rewrite Hfb in Hw.
    destruct (Node2.setup wifi' now' (Node2.rtc b)) as [b' | d] eqn:E.
    + exists b'. split; [reflexivity | exact Hw].
    + exfalso. assert (Hb : exists done, Node2.setup wifi' now' (Node2.rtc b) = Blocked done)
        by (eexists; exact E).
      apply Node2_setup_blocked in Hb. destruct Hb as [Hb _]. congruence.
Qed.

(** ** Instances *)

(** Two task runs, a message, a task run: two Readings were broadcast. *)
Lemma sensor_broadcasts_until_received_witness :
  let now := Some {| tm_hour := 14; tm_min := 30; tm_sec := 0 |} in
  let s0 := returned (Node1.boot cold) (Node1.setup (Some 1%nat) now cold) in
  let due := Node1.TaskDue now (float_of_int 40) (float_of_int 25) in
  List.length (sent (Node1.trace (Node1.loop [due; due; Node1.Receive 2 Undefined; due] s0)))
  = 2%nat.
Proof.
  intros now s0 due.
  exact (sensor_broadcasts_until_received (Some 1%nat) now cold s0
           [due; due; Node1.Receive 2 Undefined; due] eq_refl).
Defined.

(** Two task runs before any message. *)
Lemma actuator_idle_without_message_witness :
  let now := Some {| tm_hour := 14; tm_min := 30; tm_sec := 0 |} in
  let s0 := returned (Node2.boot cold) (Node2.setup (Some 1%nat) now cold) in
  Node2.loop [Node2.TaskDue now; Node2.TaskDue None] s0 = s0.
Proof.
  intros now s0.
  exact (actuator_idle_without_message (Some 1%nat) now cold s0
           [Node2.TaskDue now; Node2.TaskDue None] eq_refl eq_refl).
Defined.

(** A Reading of 31.5 degrees, then one of 25 degrees, then the task. *)
Lemma actuator_reports_last_reading_witness :
  let now := Some {| tm_hour := 14; tm_min := 30; tm_sec := 0 |} in
  let s0 := returned (Node2.boot cold) (Node2.setup (Some 1%nat) now cold) in
  let hot := Reading (double_to_float (double_of_ratio 315 10)) (float_of_int 40) cold in
  let mild := Reading (float_of_int 25) (float_of_int 40) cold in
  sent (Node2.trace (Node2.loop [Node2.Receive 1 hot; Node2.Receive 1 mild;
                                 Node2.TaskDue None] s0))
  = [Decision "Green" (clock_after now cold)].
Proof.
  intros now s0 hot mild.
  exact (actuator_reports_last_reading (Some 1%nat) now cold s0
           [Node2.Receive 1 hot] 1 mild None eq_refl eq_refl).
Defined.

(** A cold boot of each node and a run to sleep. *)
Lemma wake_timer_armed_before_sleep_witness :
  let now := Some {| tm_hour := 14; tm_min := 30; tm_sec := 0 |} in
  let s1 := returned (Node1.boot cold) (Node1.setup (Some 1%nat) now cold) in
  let s2 := returned (Node2.boot cold) (Node2.setup (Some 1%nat) now cold) in
  let es1 := [Node1.Receive 2 Undefined] in
  let es2 := [Node2.Receive 1 Undefined; Node2.TaskDue now] in
  exists later,
    Node1.trace (Node1.loop es1 s1) = Node1.trace s1 ++ later /\
    armed (Node1.trace s1) = [5000000] /\ armed later = [] /\
    existsb is_sleep (Node1.trace s1) = false.
Proof.
  intros now s1 s2 es1 es2.
  exact (proj1 (wake_timer_armed_before_sleep (Some 1%nat) (Some 1%nat) now now
                  cold cold s1 s2 es1 es2 eq_refl eq_refl)).
Defined.

(** A boot with the flag set and the link down. *)
Lemma flag_never_cleared_witness :
  let warm := {| hour := "09"; minut := "15"; sec := "42"; yettimed := true |} in
  exists s1 s2,
    Node1.setup None None warm = Returns s1 /\
    Node2.setup None None warm = Returns s2 /\
    yettimed (Node1.rtc (Node1.loop [Node1.TaskDue None S754_nan S754_nan] s1)) = true /\
    yettimed (Node2.rtc (Node2.loop [Node2.Receive 1 Undefined] s2)) = true.
Proof.
  intros warm.
  exact (flag_never_cleared None None warm
           [Node1.TaskDue None S754_nan S754_nan] [Node2.Receive 1 Undefined] eq_refl).
Defined.

(** A run without a time, from 09:15:42. *)
Lemma clock_stays_while_time_fails_witness :
  let warm := {| hour := "09"; minut := "15"; sec := "42"; yettimed := true |} in
  let es1 := [Node1.TaskDue None (float_of_int 40) (float_of_int 25);
              Node1.Receive 2 Undefined] in
  let es2 := [Node2.Receive 1 Undefined; Node2.TaskDue None] in
  hour (Node1.rtc (Node1.loop es1 (Node1.boot warm))) = "09"%string /\
  minut (Node1.rtc (Node1.loop es1 (Node1.boot warm))) = "15"%string /\
  sec (Node1.rtc (Node1.loop es1 (Node1.boot warm))) = "42"%string.
Proof.
  intros warm es1 es2.
  exact (proj1 (clock_stays_while_time_fails es1 (Node1.boot warm)
                  es2 (Node2.boot warm) eq_refl eq_refl)).
Defined.

(** A Reading of 31.5 degrees and the task: the LED is red and the
    Decision says Red. *)
Lemma LED_agrees_with_Decision_witness :
  let now := Some {| tm_hour := 14; tm_min := 30; tm_sec := 0 |} in
  let s0 := returned (Node2.boot cold) (Node2.setup (Some 1%nat) now cold) in
  let hot := Reading (double_to_float (double_of_ratio 315 10)) (float_of_int 40) cold in
  let s := Node2.loop [Node2.Receive 1 hot; Node2.TaskDue now] s0 in
  LED_shows (Node2.Color s) (Node2.trace s) /\
  exists r', sent (Node2.trace s) = [Decision (Node2.Color s) r'].
Proof.
  intros now s0 hot s.
  exact (proj2 (LED_agrees_with_Decision (Some 1%nat) now cold s0
                  [Node2.Receive 1 hot; Node2.TaskDue now] eq_refl) eq_refl).
Defined.

(** The sensor reads 25 degrees. *)
Lemma reading_temperature_end_to_end_witness :
  let reading := fst (Node1.getReadings None (float_of_int 40) (float_of_int 25)
                        (Node1.boot cold)) in
  double_to_float (Node2.temp (Node2.receivedCallback 1 reading (Node2.boot cold)))
  = float_of_int 25.
Proof.
  intros reading.
  exact (proj1 (reading_temperature_end_to_end None (float_of_int 40) (float_of_int 25)
                  (Node1.boot cold) 1 (Node2.boot cold) eq_refl)).
Defined.

(** The time 09:05:07. *)
Lemma stamp_is_two_decimal_digits_witness :
  let t := {| tm_hour := 9; tm_min := 5; tm_sec := 7 |} in
  stamps 9 (hour (Node1.rtc (Node1.printLocalTime (Some t) (Node1.boot cold)))) /\
  stamps 5 (minut (Node1.rtc (Node1.printLocalTime (Some t) (Node1.boot cold)))) /\
  stamps 7 (sec (Node1.rtc (Node1.printLocalTime (Some t) (Node1.boot cold)))).
Proof.
  intros t.
  apply (stamp_is_two_decimal_digits t (Node1.boot cold) (Node2.boot cold)).
  unfold tm_ok, t; cbn; lia.
Defined.

(** A cold boot of both nodes at 14:30:00, a Reading of 25 degrees. *)
Lemma one_round_then_warm_boots_witness :
  let now := Some {| tm_hour := 14; tm_min := 30; tm_sec := 0 |} in
  let s1 := returned (Node1.boot cold) (Node1.setup (Some 1%nat) now cold) in
  let s2 := returned (Node2.boot cold) (Node2.setup (Some 1%nat) now cold) in
  let reading := Reading (float_of_int 25) (float_of_int 40) (clock_after now cold) in
  sent (Node1.trace (Node1.loop [Node1.TaskDue None (float_of_int 40) (float_of_int 25)] s1))
  = [reading].
Proof.
  intros now s1 s2 reading.
  exact (proj1 (one_round_then_warm_boots (Some 1%nat) (Some 1%nat) None now now
                  None None None cold cold s1 s2 (float_of_int 40) (float_of_int 25)
                  eq_refl eq_refl eq_refl)).
Defined.
